(** * NILFS atime file: a shallow embedding of fs/nilfs2/atime.c

    The atime file keeps the access time of every inode in a metadata
    file of its own.  Each block of that file is a [nilfs_atime_block]:
    a header counting the valid entries, followed by an array of
    [struct timespec].  The three entry points are
    [nilfs_atime_fill_inode], [nilfs_atime_update_from_inode] and
    [nilfs_atime_delete_inode_entry].

    The C functions work on a mapped block through pointers and call the
    metadata-file layer (mdt) for blocks.  They are embedded as
    computations over an explicit [world]: the blocks of the atime file,
    the condition of the backing layer, the resources held, and the log
    of calls made to the kernel and to mdt. *)

From Stdlib Require Import ZArith List Lia Bool.
From stdpp Require Import base option list gmap.

Local Open Scope Z_scope.

(* ====================================================================== *)
(** ** Machine integers and error numbers *)

(** [__u64] arithmetic: results are reduced modulo 2^64. *)
Definition U64_MODULUS : Z := 2 ^ 64.
Definition u64 (z : Z) : Z := z mod U64_MODULUS.

(** Modelled from the spec: the error numbers are declared in
    <linux/errno.h>, which is not part of the sources at hand.  The spec
    names the failures of the backing layer IOError and OutOfMemory; the
    comment of [nilfs_atime_get_block] gives them as [-EIO] and [-ENOMEM].
    The values are those of the kernel. *)
Definition ENOENT : Z := 2.
Definition EIO : Z := 5.
Definition ENOMEM : Z := 12.

(* ====================================================================== *)
(** ** Structs of blocks in atime file *)

Record timespec := Timespec { tv_sec : Z; tv_nsec : Z }.

Definition timespec_zero : timespec := {| tv_sec := 0; tv_nsec := 0 |}.

(** [(0 == atime->tv_sec) && (0 == atime->tv_nsec)] *)
Definition timespec_is_zero (t : timespec) : bool :=
  (0 =? tv_sec t) && (0 =? tv_nsec t).

Record nilfs_atime_block_header := BlockHeader { count : Z }.

(** [sizeof(struct nilfs_atime_block_header)]: one [__u64], packed. *)
Definition sizeof_nilfs_atime_block_header : Z := 8.

(** Modelled from the spec: [struct timespec] is declared in
    <linux/time.h>, which is not part of the sources at hand.  The spec
    gives each entry as two 8-byte integers (seconds, nanoseconds) with no
    padding, 16 bytes in all. *)
Definition sizeof_timespec : Z := 16.

Definition NILFS_ENTRIES_IN_ATIME_BLOCK : Z :=
  (512 - sizeof_nilfs_atime_block_header) / sizeof_timespec.

Record nilfs_atime_block := AtimeBlock {
  header : nilfs_atime_block_header;
  entries : list timespec
}.

(** [sizeof(struct nilfs_atime_block)] *)
Definition sizeof_nilfs_atime_block : Z :=
  sizeof_nilfs_atime_block_header
  + NILFS_ENTRIES_IN_ATIME_BLOCK * sizeof_timespec.

(** The part of an inode this file reads and writes.  [i_ino] is an
    [unsigned long]. *)
Record inode := Inode {
  i_ino : Z;
  i_mtime : timespec;
  i_atime : timespec
}.

Definition set_i_atime (i : inode) (t : timespec) : inode :=
  {| i_ino := i_ino i; i_mtime := i_mtime i; i_atime := t |}.

(** A [struct inode *]: [None] is [NULL], [Some a] the address [a]. *)
Definition inode_ptr := option Z.

(** A buffer head, known by the block of the file it holds. *)
Record buffer_head := BufferHead { b_blocknr : Z }.

(** A [struct nilfs_atime_block *] into a mapped buffer, and a
    [struct timespec *] into its array of entries. *)
Abbreviation block_ptr := Z (only parsing).
Abbreviation entry_ptr := (Z * nat)%type (only parsing).

(* ====================================================================== *)
(** ** The world the code runs in *)

(** Calls made to the kernel and to the metadata-file layer, in order. *)
Inductive event :=
| EvDownWrite
| EvUpWrite
| EvMdtGetBlock (blkoff : Z)
| EvKmap (blkoff : Z)
| EvMarkBufferDirty (blkoff : Z)
| EvMdtMarkDirty
| EvKunmap (blkoff : Z)
| EvBrelse (blkoff : Z)
| EvMdtDeleteBlock (blkoff : Z).

(** Ways in which the backing layer fails. *)
Inductive mdt_fault := FaultIO | FaultNoMem.

Definition fault_errno (f : mdt_fault) : Z :=
  match f with
  | FaultIO => EIO
  | FaultNoMem => ENOMEM
  end.

Record world := World {
  (** blocks of the atime file, by block offset *)
  mdt_blocks : gmap Z nilfs_atime_block;
  (** what a newly allocated buffer holds before it is initialised *)
  mdt_scratch : nilfs_atime_block;
  (** block offsets the backing layer cannot get, and why *)
  mdt_get_fault : gmap Z mdt_fault;
  (** block offsets the backing layer cannot delete, and why *)
  mdt_delete_fault : gmap Z mdt_fault;
  (** [NILFS_MDT(atimefile)->mi_sem] is held for writing *)
  mi_sem : bool;
  (** buffer heads with a reference taken and not yet released *)
  bh_held : list Z;
  (** pages mapped by [kmap] and not yet unmapped *)
  kmapped : list Z;
  (** buffers marked dirty *)
  bh_dirty : gset Z;
  (** the metadata file is marked dirty *)
  mdt_dirty : bool;
  (** log of calls *)
  trace : list event
}.

Definition set_blocks (f : gmap Z nilfs_atime_block -> gmap Z nilfs_atime_block)
  (w : world) : world :=
  {| mdt_blocks := f (mdt_blocks w); mdt_scratch := mdt_scratch w;
     mdt_get_fault := mdt_get_fault w; mdt_delete_fault := mdt_delete_fault w;
     mi_sem := mi_sem w; bh_held := bh_held w; kmapped := kmapped w;
     bh_dirty := bh_dirty w; mdt_dirty := mdt_dirty w; trace := trace w |}.

Definition set_mi_sem (b : bool) (w : world) : world :=
  {| mdt_blocks := mdt_blocks w; mdt_scratch := mdt_scratch w;
     mdt_get_fault := mdt_get_fault w; mdt_delete_fault := mdt_delete_fault w;
     mi_sem := b; bh_held := bh_held w; kmapped := kmapped w;
     bh_dirty := bh_dirty w; mdt_dirty := mdt_dirty w; trace := trace w |}.

Definition set_bh_held (f : list Z -> list Z) (w : world) : world :=
  {| mdt_blocks := mdt_blocks w; mdt_scratch := mdt_scratch w;
     mdt_get_fault := mdt_get_fault w; mdt_delete_fault := mdt_delete_fault w;
     mi_sem := mi_sem w; bh_held := f (bh_held w); kmapped := kmapped w;
     bh_dirty := bh_dirty w; mdt_dirty := mdt_dirty w; trace := trace w |}.

Definition set_kmapped (f : list Z -> list Z) (w : world) : world :=
  {| mdt_blocks := mdt_blocks w; mdt_scratch := mdt_scratch w;
     mdt_get_fault := mdt_get_fault w; mdt_delete_fault := mdt_delete_fault w;
     mi_sem := mi_sem w; bh_held := bh_held w; kmapped := f (kmapped w);
     bh_dirty := bh_dirty w; mdt_dirty := mdt_dirty w; trace := trace w |}.

Definition set_bh_dirty (f : gset Z -> gset Z) (w : world) : world :=
  {| mdt_blocks := mdt_blocks w; mdt_scratch := mdt_scratch w;
     mdt_get_fault := mdt_get_fault w; mdt_delete_fault := mdt_delete_fault w;
     mi_sem := mi_sem w; bh_held := bh_held w; kmapped := kmapped w;
     bh_dirty := f (bh_dirty w); mdt_dirty := mdt_dirty w; trace := trace w |}.

Definition set_mdt_dirty (b : bool) (w : world) : world :=
  {| mdt_blocks := mdt_blocks w; mdt_scratch := mdt_scratch w;
     mdt_get_fault := mdt_get_fault w; mdt_delete_fault := mdt_delete_fault w;
     mi_sem := mi_sem w; bh_held := bh_held w; kmapped := kmapped w;
     bh_dirty := bh_dirty w; mdt_dirty := b; trace := trace w |}.

Definition set_faults (gf df : gmap Z mdt_fault) (w : world) : world :=
  {| mdt_blocks := mdt_blocks w; mdt_scratch := mdt_scratch w;
     mdt_get_fault := gf; mdt_delete_fault := df;
     mi_sem := mi_sem w; bh_held := bh_held w; kmapped := kmapped w;
     bh_dirty := bh_dirty w; mdt_dirty := mdt_dirty w; trace := trace w |}.

Definition log (e : event) (w : world) : world :=
  {| mdt_blocks := mdt_blocks w; mdt_scratch := mdt_scratch w;
     mdt_get_fault := mdt_get_fault w; mdt_delete_fault := mdt_delete_fault w;
     mi_sem := mi_sem w; bh_held := bh_held w; kmapped := kmapped w;
     bh_dirty := bh_dirty w; mdt_dirty := mdt_dirty w;
     trace := trace w ++ [e] |}.

(** Drop one occurrence of [b]: one reference given back. *)
Fixpoint drop_one (b : Z) (l : list Z) : list Z :=
  match l with
  | [] => []
  | x :: l' => if Z.eqb x b then l' else x :: drop_one b l'
  end.

(* ====================================================================== *)
(** ** Computations over the world *)

Definition M (A : Type) : Type := world -> A * world.

Definition retM {A} (a : A) : M A := fun w => (a, w).

Definition bindM {A B} (m : M A) (k : A -> M B) : M B :=
  fun w => let r := m w in k (fst r) (snd r).

Notation "'let*' x ':=' m 'in' k" := (bindM m (fun x => k))
  (at level 10, x name, m at level 100, k at level 200).
Notation "m '>>' k" := (bindM m (fun _ => k))
  (at level 100, k at level 200, right associativity).

Definition effect (f : world -> world) : M unit := fun w => (tt, f w).
Definition inspect {A} (f : world -> A) : M A := fun w => (f w, w).

(* ---------------------------------------------------------------------- *)
(** *** Memory of a mapped block, reached through pointers *)

(** A block with every byte 0: no valid entry, counter 0. *)
Definition zero_block : nilfs_atime_block :=
  {| header := {| count := 0 |};
     entries := replicate (Z.to_nat NILFS_ENTRIES_IN_ATIME_BLOCK)
                          timespec_zero |}.

(** The block behind [p].  The code only follows pointers into blocks it
    has acquired, which the file has.  A block the file does not have yet
    reads as it will when first acquired, [zero_block]. *)
Definition block_at (w : world) (p : block_ptr) : nilfs_atime_block :=
  default zero_block (mdt_blocks w !! p).

Definition entry_at (w : world) (p : entry_ptr) : timespec :=
  default timespec_zero (entries (block_at w (fst p)) !! snd p).

(** [atime_block->header.count] *)
Definition load_count (p : block_ptr) : M Z :=
  inspect (fun w => count (header (block_at w p))).

Definition store_count (p : block_ptr) (v : Z) : M unit :=
  effect (set_blocks
    (alter (fun blk => AtimeBlock (BlockHeader v) (entries blk)) p)).

(** [*atime] *)
Definition load_timespec (p : entry_ptr) : M timespec :=
  inspect (fun w => entry_at w p).

Definition store_timespec (p : entry_ptr) (v : timespec) : M unit :=
  effect (set_blocks
    (alter (fun blk => AtimeBlock (header blk) (<[snd p := v]> (entries blk)))
           (fst p))).

(** [atime->tv_sec = v] and [atime->tv_nsec = v] *)
Definition store_tv_sec (p : entry_ptr) (v : Z) : M unit :=
  effect (set_blocks
    (alter (fun blk => AtimeBlock (header blk)
              (alter (fun e => Timespec v (tv_nsec e)) (snd p) (entries blk)))
           (fst p))).

Definition store_tv_nsec (p : entry_ptr) (v : Z) : M unit :=
  effect (set_blocks
    (alter (fun blk => AtimeBlock (header blk)
              (alter (fun e => Timespec (tv_sec e) v) (snd p) (entries blk)))
           (fst p))).

(* ---------------------------------------------------------------------- *)
(** *** Kernel services *)

(** Modelled from the spec: the semaphore, page-mapping and buffer-head
    services of the kernel are not part of the sources at hand.  The spec
    gives a single exclusive critical section scoped to the store around
    the acquisition ([down_write], [up_write] on [mi_sem]), the marking of
    the block as dirty ([mark_buffer_dirty]), and the release of the block
    to the backing layer without write-back ([kunmap], [brelse]).  Each
    service records its call and what is held afterwards. *)
Definition down_write : M unit :=
  effect (fun w => set_mi_sem true (log EvDownWrite w)).

Definition up_write : M unit :=
  effect (fun w => set_mi_sem false (log EvUpWrite w)).

(** [kmap(bh->b_page)], giving [kaddr + bh_offset(bh)] *)
Definition kmap (bh : buffer_head) : M block_ptr :=
  fun w => (b_blocknr bh,
            set_kmapped (cons (b_blocknr bh)) (log (EvKmap (b_blocknr bh)) w)).

Definition kunmap (bh : buffer_head) : M unit :=
  effect (fun w => set_kmapped (drop_one (b_blocknr bh))
                     (log (EvKunmap (b_blocknr bh)) w)).

Definition brelse (bh : buffer_head) : M unit :=
  effect (fun w => set_bh_held (drop_one (b_blocknr bh))
                     (log (EvBrelse (b_blocknr bh)) w)).

Definition mark_buffer_dirty (bh : buffer_head) : M unit :=
  effect (fun w => set_bh_dirty (union {[ b_blocknr bh ]})
                     (log (EvMarkBufferDirty (b_blocknr bh)) w)).

(* ---------------------------------------------------------------------- *)
(** *** The metadata-file layer (mdt.c) *)

(** Modelled from the spec: [nilfs_mdt_get_block] lives in mdt.c, which is
    not part of the sources at hand.  The spec gives
    [get_block(file, block_number, create_if_missing, initializer)
       -> block_memory, handle | IOError | OutOfMemory]:
    the block is requested with create-on-miss semantics and an
    initializer for newly created blocks; on a backing-layer failure no
    handle is held.  The spec does not describe a miss without
    [create_if_missing], which atime.c never asks for; the model answers
    [-ENOENT] there. *)
Definition nilfs_mdt_get_block (blkoff : Z) (create : bool)
  (init_block : nilfs_atime_block -> nilfs_atime_block)
  : M (Z + buffer_head) :=
  fun w =>
    let w1 := log (EvMdtGetBlock blkoff) w in
    match mdt_get_fault w !! blkoff with
    | Some f => (inl (- fault_errno f), w1)
    | None =>
        match mdt_blocks w !! blkoff with
        | Some _ =>
            (inr (BufferHead blkoff), set_bh_held (cons blkoff) w1)
        | None =>
            if create then
              (inr (BufferHead blkoff),
               set_bh_held (cons blkoff)
                 (set_blocks (insert blkoff (init_block (mdt_scratch w))) w1))
            else (inl (- ENOENT), w1)
        end
    end.

(** Modelled from the spec: [nilfs_mdt_mark_dirty] lives in mdt.h; the spec
    gives [mark_dirty(file)]. *)
Definition nilfs_mdt_mark_dirty : M unit :=
  effect (fun w => set_mdt_dirty true (log EvMdtMarkDirty w)).

(** Modelled from the spec: [nilfs_mdt_delete_block] lives in mdt.c; the
    spec gives [delete_block(file, block_number)], which returns the block
    to the free space of the backing store.  The C function returns an
    [int]: 0, or a negative error number when the backing layer fails, in
    which case the block stays. *)
Definition nilfs_mdt_delete_block (blkoff : Z) : M Z :=
  fun w =>
    let w1 := log (EvMdtDeleteBlock blkoff) w in
    match mdt_delete_fault w !! blkoff with
    | Some f => (- fault_errno f, w1)
    | None => (0, set_blocks (delete blkoff) w1)
    end.

(* ====================================================================== *)
(** ** Functions for getting a mapped block to atime file *)

(** [memset] of the whole block to 0: the counter and every entry. *)
Definition nilfs_atime_block_init (kaddr : nilfs_atime_block)
  : nilfs_atime_block :=
  zero_block.

Definition nilfs_atime_get_block_number (inode_num : Z) : Z :=
  inode_num / NILFS_ENTRIES_IN_ATIME_BLOCK.

Definition nilfs_atime_get_entry_in_block (atime_block : block_ptr)
  (inode_num : Z) : entry_ptr :=
  (atime_block, Z.to_nat (inode_num mod NILFS_ENTRIES_IN_ATIME_BLOCK)).

(** [nilfs_atime_get_block]: [inl ret] with [ret < 0] on error; on success
    the block and the buffer head stored through [block_out] and
    [block_bh_out].  Every caller passes a [block_out] that is not [NULL]. *)
Definition nilfs_atime_get_block (atimefile : Z) (inode_num : Z)
  : M (Z + block_ptr * buffer_head) :=
  down_write >>
  (* Get the block from MDT *)
  let* ret := nilfs_mdt_get_block
                (nilfs_atime_get_block_number inode_num)
                true nilfs_atime_block_init in
  match ret with
  | inl err => up_write >> retM (inl err)
  | inr block_bh =>
      (* Map the block to lower memory *)
      let* atime_block := kmap block_bh in
      (* Make sure the block will be flushed when we finish *)
      mark_buffer_dirty block_bh >>
      nilfs_mdt_mark_dirty >>
      (* Return the atime_block and buffer head to the user *)
      up_write >>
      retM (inr (atime_block, block_bh))
  end.

Definition nilfs_atime_put_block (block_bh : buffer_head) : M unit :=
  kunmap block_bh >> brelse block_bh.

(* ====================================================================== *)
(** ** External interfaces for setting/getting/deleting atime *)

(** [inode_p] is the address of the inode, [ino] what it holds; the
    result is the value returned and the inode afterwards.  The first test
    is [(NULL == atimefile) || (atimefile == inode)]. *)
Definition nilfs_atime_fill_inode (atimefile : inode_ptr) (inode_p : Z)
  (ino : inode) : M (Z * inode) :=
  match atimefile with
  | Some a =>
      if a =? inode_p then retM (0, set_i_atime ino (i_mtime ino))
      else
        let* err := nilfs_atime_get_block a (i_ino ino) in
        match err with
        | inl err => retM (err, ino)
        | inr (atime_block, block_bh) =>
            let atime :=
              nilfs_atime_get_entry_in_block atime_block (i_ino ino) in
            let* cur := load_timespec atime in
            (if timespec_is_zero cur then
               (* time is invalid, set to valid time and increase count *)
               store_timespec atime (i_mtime ino) >>
               let* c := load_count atime_block in
               store_count atime_block (u64 (c + 1))
             else retM tt) >>
            let* now := load_timespec atime in
            nilfs_atime_put_block block_bh >>
            retM (0, set_i_atime ino now)
        end
  | None => retM (0, set_i_atime ino (i_mtime ino))
  end.

Definition nilfs_atime_update_from_inode (atimefile : Z) (ino : inode)
  : M Z :=
  let* err := nilfs_atime_get_block atimefile (i_ino ino) in
  match err with
  | inl err => retM err
  | inr (atime_block, block_bh) =>
      let atime := nilfs_atime_get_entry_in_block atime_block (i_ino ino) in
      store_timespec atime (i_atime ino) >>
      nilfs_atime_put_block block_bh >>
      retM 0
  end.

Definition nilfs_atime_delete_inode_entry (atimefile : Z) (ino : inode)
  : M Z :=
  let* err := nilfs_atime_get_block atimefile (i_ino ino) in
  match err with
  | inl err => retM err
  | inr (atime_block, block_bh) =>
      let atime := nilfs_atime_get_entry_in_block atime_block (i_ino ino) in
      store_tv_sec atime 0 >>
      store_tv_nsec atime 0 >>
      let* c := load_count atime_block in
      store_count atime_block (u64 (c - 1)) >>
      let* c' := load_count atime_block in
      let needs_release := 0 =? c' in
      nilfs_atime_put_block block_bh >>
      (if needs_release then
         let* _ := nilfs_mdt_delete_block
                     (nilfs_atime_get_block_number (i_ino ino)) in
         retM tt
       else retM tt) >>
      retM 0
  end.

(* ====================================================================== *)
(** ** Observing the store *)

(** Where the entry of an inode lives: its block, and its place there. *)
Definition slot_of (inode_num : Z) : entry_ptr :=
  nilfs_atime_get_entry_in_block
    (nilfs_atime_get_block_number inode_num) inode_num.

(** The counter of block [b]. *)
Definition count_at (w : world) (b : Z) : Z := count (header (block_at w b)).

(** An entry is absent when it is (0,0). *)
Definition absent (w : world) (inode_num : Z) : Prop :=
  entry_at w (slot_of inode_num) = timespec_zero.

(** Number of entries of a block that are not (0,0). *)
Fixpoint live_entries (l : list timespec) : Z :=
  match l with
  | [] => 0
  | e :: l' => (if timespec_is_zero e then 0 else 1) + live_entries l'
  end.

(** A block has the shape of [struct nilfs_atime_block]. *)
Definition block_wf (blk : nilfs_atime_block) : Prop :=
  length (entries blk) = Z.to_nat NILFS_ENTRIES_IN_ATIME_BLOCK.

Definition world_wf (w : world) : Prop :=
  map_Forall (fun _ blk => block_wf blk) (mdt_blocks w).

(** The counter of a block is the number of its valid entries. *)
Definition block_ok (blk : nilfs_atime_block) : Prop :=
  block_wf blk /\ count (header blk) = live_entries (entries blk).

Definition world_ok (w : world) : Prop :=
  map_Forall (fun _ blk => block_ok blk) (mdt_blocks w).

(** Every block of the file is as [nilfs_atime_block_init] left it. *)
Definition fresh_store (w : world) : Prop :=
  map_Forall (fun _ blk => blk = nilfs_atime_block_init blk) (mdt_blocks w).

(** The store with no block at all, nothing held, nothing logged. *)
Definition empty_world : world :=
  {| mdt_blocks := ∅; mdt_scratch := AtimeBlock (BlockHeader 0) [];
     mdt_get_fault := ∅; mdt_delete_fault := ∅;
     mi_sem := false; bh_held := []; kmapped := [];
     bh_dirty := ∅; mdt_dirty := false; trace := [] |}.

(* ---------------------------------------------------------------------- *)
(** *** Sequences of operations *)

Inductive op :=
| OpFill (atimefile : inode_ptr) (inode_p : Z) (ino : inode)
| OpDelete (atimefile : Z) (ino : inode)
| OpFaults (gf df : gmap Z mdt_fault).

Definition run_op (o : op) (w : world) : world :=
  match o with
  | OpFill atimefile inode_p ino =>
      snd (nilfs_atime_fill_inode atimefile inode_p ino w)
  | OpDelete atimefile ino =>
      snd (nilfs_atime_delete_inode_entry atimefile ino w)
  | OpFaults gf df => set_faults gf df w
  end.

Fixpoint run (ops : list op) (w : world) : world :=
  match ops with
  | [] => w
  | o :: ops' => run ops' (run_op o w)
  end.

(** The callers' side of the bargain: the time handed to fill is a valid
    time, not (0,0), and delete is asked only for an entry that is there. *)
Definition op_admissible (o : op) (w : world) : bool :=
  match o with
  | OpFill _ _ ino => negb (timespec_is_zero (i_mtime ino))
  | OpDelete _ ino =>
      negb (timespec_is_zero (entry_at w (slot_of (i_ino ino))))
  | OpFaults _ _ => true
  end.

Fixpoint admissible (ops : list op) (w : world) : bool :=
  match ops with
  | [] => true
  | o :: ops' => op_admissible o w && admissible ops' (run_op o w)
  end.

(* ---------------------------------------------------------------------- *)
(** *** Reading the log *)

(** What an operation added to the log. *)
Definition events_since (w w' : world) : list event :=
  drop (length (trace w)) (trace w').

(** The calls of a successful [nilfs_atime_get_block] on block [b]. *)
Definition acquire_events (b : Z) : list event :=
  [EvDownWrite; EvMdtGetBlock b; EvKmap b; EvMarkBufferDirty b;
   EvMdtMarkDirty; EvUpWrite].

(** The calls of [nilfs_atime_put_block]. *)
Definition release_events (b : Z) : list event := [EvKunmap b; EvBrelse b].

(** Blocks whose deletion was requested, in order. *)
Fixpoint reclaim_requests (t : list event) : list Z :=
  match t with
  | [] => []
  | EvMdtDeleteBlock b :: t' => b :: reclaim_requests t'
  | _ :: t' => reclaim_requests t'
  end.

(** Every deletion of a block is requested while no buffer of that block
    is held: [held] lists the buffers held when the log starts, a buffer is
    held from [kmap] to [brelse]. *)
Fixpoint reclaims_released (held : list Z) (t : list event) : bool :=
  match t with
  | [] => true
  | EvKmap b :: t' => reclaims_released (b :: held) t'
  | EvBrelse b :: t' => reclaims_released (drop_one b held) t'
  | EvMdtDeleteBlock b :: t' =>
      negb (existsb (Z.eqb b) held) && reclaims_released held t'
  | _ :: t' => reclaims_released held t'
  end.

(** A store whose backing layer cannot get block 0. *)
Definition io_fault_world : world :=
  set_faults {[ 0 := FaultIO ]} ∅ empty_world.

(** A store whose backing layer cannot delete block 0. *)
Definition stuck_block_world : world :=
  set_faults ∅ {[ 0 := FaultIO ]} empty_world.

(** Inode [n] with modification time [t] and no access time yet. *)
Definition inode_at (n : Z) (t : timespec) : inode :=
  {| i_ino := n; i_mtime := t; i_atime := timespec_zero |}.

(** Inode 10, modified at 1000 s, and the same inode modified again. *)
Definition inode_ten : inode := inode_at 10 (Timespec 1000 0).
Definition inode_ten_later : inode := inode_at 10 (Timespec 2000 0).

(** The empty store after a fill of inode 10; the atime file is the inode
    at address 7, inode 10 is at address 8. *)
Definition filled_world : world :=
  snd (nilfs_atime_fill_inode (Some 7) 8 inode_ten empty_world).

Definition stuck_filled_world : world :=
  snd (nilfs_atime_fill_inode (Some 7) 8 inode_ten stuck_block_world).

(** Fills and deletes over two blocks, with an acquisition that fails. *)
Definition mixed_ops : list op :=
  [OpFill (Some 7) 8 (inode_at 10 (Timespec 1000 0));
   OpFill (Some 7) 8 (inode_at 11 (Timespec 1500 3));
   OpFill (Some 7) 8 (inode_at 10 (Timespec 2000 0));
   OpFill (Some 7) 8 (inode_at 31 (Timespec 2500 0));
   OpFaults {[ 1 := FaultNoMem ]} ∅;
   OpDelete 7 (inode_at 31 (Timespec 0 0));
   OpFaults ∅ ∅;
   OpDelete 7 (inode_at 10 (Timespec 0 0))].

(** One fill and two deletes of inode 10. *)
Definition double_delete_ops : list op :=
  [OpFill (Some 7) 8 inode_ten; OpDelete 7 inode_ten; OpDelete 7 inode_ten].

(** One fill of inode 10 with the time (0,0). *)
Definition zero_fill_ops : list op :=
  [OpFill (Some 7) 8 (inode_at 10 timespec_zero)].

(** Nothing of the store changed from [w] to [w']: the blocks, the
    buffers held and mapped, the dirty marks; the semaphore is free and no
    deletion of a block was requested. *)
Definition store_untouched (w w' : world) : Prop :=
  mdt_blocks w' = mdt_blocks w
  /\ bh_held w' = bh_held w
  /\ kmapped w' = kmapped w
  /\ bh_dirty w' = bh_dirty w
  /\ mdt_dirty w' = mdt_dirty w
  /\ mi_sem w' = false
  /\ reclaim_requests (events_since w w') = [].

(* ---------------------------------------------------------------------- *)
(** *** What the three operations do to the block they acquire *)

Definition fill_block (i : nat) (mtime : timespec) (blk : nilfs_atime_block)
  : nilfs_atime_block :=
  if timespec_is_zero (default timespec_zero (entries blk !! i)) then
    {| header := {| count := u64 (count (header blk) + 1) |};
       entries := <[i := mtime]> (entries blk) |}
  else blk.

Definition update_block (i : nat) (t : timespec) (blk : nilfs_atime_block)
  : nilfs_atime_block :=
  {| header := header blk; entries := <[i := t]> (entries blk) |}.

Definition delete_block (i : nat) (blk : nilfs_atime_block)
  : nilfs_atime_block :=
  {| header := {| count := u64 (count (header blk) - 1) |};
     entries := <[i := timespec_zero]> (entries blk) |}.

(** The world after an operation that acquired block [b], left the blocks
    [blocks'] behind and logged [evs]: the semaphore is free again, the
    buffer and the file are dirty, and nothing more is held than before. *)
Definition after_op (w : world) (b : Z)
  (blocks' : gmap Z nilfs_atime_block) (evs : list event) : world :=
  {| mdt_blocks := blocks'; mdt_scratch := mdt_scratch w;
     mdt_get_fault := mdt_get_fault w; mdt_delete_fault := mdt_delete_fault w;
     mi_sem := false; bh_held := bh_held w; kmapped := kmapped w;
     bh_dirty := {[ b ]} ∪ bh_dirty w; mdt_dirty := true;
     trace := trace w ++ evs |}.

(** The world after a successful [nilfs_atime_get_block] on block [b]. *)
Definition after_acquire (w : world) (b : Z) : world :=
  {| mdt_blocks := <[b := block_at w b]> (mdt_blocks w);
     mdt_scratch := mdt_scratch w;
     mdt_get_fault := mdt_get_fault w; mdt_delete_fault := mdt_delete_fault w;
     mi_sem := false; bh_held := b :: bh_held w; kmapped := b :: kmapped w;
     bh_dirty := {[ b ]} ∪ bh_dirty w; mdt_dirty := true;
     trace := trace w ++ acquire_events b |}.

(** The world after an acquisition that failed. *)
Definition after_failure (w : world) (b : Z) : world :=
  {| mdt_blocks := mdt_blocks w; mdt_scratch := mdt_scratch w;
     mdt_get_fault := mdt_get_fault w; mdt_delete_fault := mdt_delete_fault w;
     mi_sem := false; bh_held := bh_held w; kmapped := kmapped w;
     bh_dirty := bh_dirty w; mdt_dirty := mdt_dirty w;
     trace := trace w ++ [EvDownWrite; EvMdtGetBlock b; EvUpWrite] |}.

(* ====================================================================== *)
(** ** More of the file: sequences that never fail to reclaim *)

(** No change in the condition of the backing layer makes the deletion of
    a block fail. *)
Fixpoint reclaim_never_fails (ops : list op) : bool :=
  match ops with
  | [] => true
  | OpFaults _ df :: ops' => bool_decide (df = ∅) && reclaim_never_fails ops'
  | _ :: ops' => reclaim_never_fails ops'
  end.

(** Counters are right, every block counts at least one valid entry, and
    the backing layer can delete any block. *)
Definition no_empty_block (w : world) : Prop :=
  world_ok w
  /\ mdt_delete_fault w = ∅
  /\ map_Forall (fun _ blk => 1 <= count (header blk)) (mdt_blocks w).

(** Inode 11 with an access time to store. *)
Definition inode_eleven_read : inode :=
  {| i_ino := 11; i_mtime := Timespec 1500 0; i_atime := Timespec 1700 5 |}.

(** Inode 10 with an access time to store. *)
Definition inode_ten_read : inode :=
  {| i_ino := 10; i_mtime := Timespec 1000 0; i_atime := Timespec 1800 0 |}.

(** Inodes 10 and 11 filled in, then inode 10 deleted: block 0 counts one
    valid entry, that of inode 11. *)
Definition one_left_world : world :=
  run [OpFill (Some 7) 8 inode_ten;
       OpFill (Some 7) 8 (inode_at 11 (Timespec 1500 3));
       OpDelete 7 inode_ten] empty_world.

(* ====================================================================== *)
(** ** Reading the inode of the atime file *)

(** [nilfs_atime_read] gets the inode of the atime file from the inode
    cache and, when the inode is new, sets it up.  The cache, the readers
    and the constants it uses are declared outside the sources at hand;
    they are taken as parameters: what [nilfs_iget_locked] answers for an
    inode number ([None] for [NULL], else the address of the inode and its
    [i_state]), what [nilfs_mdt_init] and [nilfs_read_inode_common] return,
    and the values of [I_NEW], [NILFS_ATIME_INO], [NILFS_CPFILE_INO] and
    [NILFS_MDT_GFP]. *)
Record iget_env := IgetEnv {
  I_NEW : Z;
  NILFS_ATIME_INO : Z;
  NILFS_CPFILE_INO : Z;
  NILFS_MDT_GFP : Z;
  nilfs_iget_locked : Z -> option (Z * Z);
  nilfs_mdt_init : Z -> Z -> Z -> Z;
  nilfs_read_inode_common : Z -> Z -> Z
}.

(** The calls [nilfs_atime_read] makes, in order. *)
Inductive iget_call :=
| CallIgetLocked (ino : Z)
| CallMdtInit (inode_p gfp objsz : Z)
| CallMdtSetEntrySize (inode_p entry_size header_size : Z)
| CallReadInodeCommon (inode_p raw_inode : Z)
| CallUnlockNewInode (inode_p : Z)
| CallIgetFailed (inode_p : Z).

(** What a read gives: the value returned, what was stored through
    [inodep] ([None] when nothing was), and the calls made. *)
Record read_result := ReadResult {
  read_ret : Z;
  read_inodep : option Z;
  read_calls : list iget_call
}.

Definition nilfs_atime_read (env : iget_env) (raw_inode : Z) : read_result :=
  let calls := [CallIgetLocked (NILFS_ATIME_INO env)] in
  match nilfs_iget_locked env (NILFS_ATIME_INO env) with
  | None => ReadResult (- ENOMEM) None calls
  | Some (atimefile, i_state) =>
      if Z.land i_state (I_NEW env) =? 0 then
        (* out *)
        ReadResult 0 (Some atimefile) calls
      else
        let err := nilfs_mdt_init env atimefile (NILFS_MDT_GFP env) 0 in
        let calls := calls ++ [CallMdtInit atimefile (NILFS_MDT_GFP env) 0] in
        if err =? 0 then
          let calls :=
            calls ++ [CallMdtSetEntrySize atimefile sizeof_nilfs_atime_block
                        sizeof_nilfs_atime_block_header] in
          let err := nilfs_read_inode_common env atimefile raw_inode in
          let calls := calls ++ [CallReadInodeCommon atimefile raw_inode] in
          if err =? 0 then
            (* out *)
            ReadResult 0 (Some atimefile)
              (calls ++ [CallUnlockNewInode atimefile])
          else
            (* failed *)
            ReadResult err None (calls ++ [CallIgetFailed atimefile])
        else
          (* failed *)
          ReadResult err None (calls ++ [CallIgetFailed atimefile])
  end.

Definition is_unlock (c : iget_call) : bool :=
  match c with CallUnlockNewInode _ => true | _ => false end.

Definition is_failed (c : iget_call) : bool :=
  match c with CallIgetFailed _ => true | _ => false end.

Definition is_setup (c : iget_call) : bool :=
  match c with
  | CallMdtInit _ _ _ | CallMdtSetEntrySize _ _ _ | CallReadInodeCommon _ _ =>
      true
  | _ => false
  end.

(** How many calls of a kind were made. *)
Definition calls_of (kind : iget_call -> bool) (calls : list iget_call)
  : nat :=
  length (List.filter kind calls).

(** The earlier version of the file, before the atime file had blocks. *)
Module Stub.

(** [inode->i_atime = inode->i_mtime] *)
Definition nilfs_atime_fill_inode (ino : inode) : inode :=
  set_i_atime ino (i_mtime ino).

(** The body is empty. *)
Definition nilfs_atime_update_table (ino : inode) : inode := ino.

Definition nilfs_atime_read (env : iget_env) (raw_inode : Z)
  : read_result :=
  let calls := [CallIgetLocked (NILFS_CPFILE_INO env)] in
  match nilfs_iget_locked env (NILFS_CPFILE_INO env) with
  | None => ReadResult (- ENOMEM) None calls
  | Some (atime_ino, i_state) =>
      if Z.land i_state (I_NEW env) =? 0 then
        (* out *)
        ReadResult 0 (Some atime_ino) calls
      else
        let err := nilfs_read_inode_common env atime_ino raw_inode in
        let calls := calls ++ [CallReadInodeCommon atime_ino raw_inode] in
        if err =? 0 then
          (* out *)
          ReadResult 0 (Some atime_ino)
            (calls ++ [CallUnlockNewInode atime_ino])
        else
          (* failed *)
          ReadResult err None (calls ++ [CallIgetFailed atime_ino])
  end.

End Stub.

(** A cache that holds inode number 7 at address 700, new, with readers
    that succeed; the same with a reader that fails with -5. *)
Definition new_inode_env : iget_env :=
  {| I_NEW := 8; NILFS_ATIME_INO := 7; NILFS_CPFILE_INO := 7;
     NILFS_MDT_GFP := 0;
     nilfs_iget_locked := fun n => if n =? 7 then Some (700, 8) else None;
     nilfs_mdt_init := fun _ _ _ => 0;
     nilfs_read_inode_common := fun _ _ => 0 |}.

Definition bad_disk_env : iget_env :=
  {| I_NEW := 8; NILFS_ATIME_INO := 7; NILFS_CPFILE_INO := 7;
     NILFS_MDT_GFP := 0;
     nilfs_iget_locked := fun n => if n =? 7 then Some (700, 8) else None;
     nilfs_mdt_init := fun _ _ _ => 0;
     nilfs_read_inode_common := fun _ _ => -5 |}.

(* ====================================================================== *)
(** * Properties *)

(** ** The layout *)

Lemma entries_in_block : NILFS_ENTRIES_IN_ATIME_BLOCK = 31.
Proof. reflexivity. Qed.

Lemma drop_one_head b l : drop_one b (b :: l) = l.
Proof. simpl. by rewrite Z.eqb_refl. Qed.

(** ** Running the code

    [run_code] unfolds the C functions and the services they call;
    [run_world] reduces what they did to the fields of the world. *)

Ltac run_world :=
  cbn [after_op after_acquire after_failure set_blocks set_mi_sem
    set_bh_held set_kmapped set_bh_dirty set_mdt_dirty log
    acquire_events release_events
    fst snd mdt_blocks mdt_scratch mdt_get_fault mdt_delete_fault mi_sem
    bh_held kmapped bh_dirty mdt_dirty trace b_blocknr header entries
    count].

Ltac run_code :=
  unfold nilfs_atime_fill_inode, nilfs_atime_update_from_inode,
    nilfs_atime_delete_inode_entry, nilfs_atime_get_block,
    nilfs_atime_put_block, nilfs_mdt_get_block, nilfs_mdt_delete_block,
    nilfs_mdt_mark_dirty, mark_buffer_dirty, kmap, kunmap, brelse,
    down_write, up_write, load_count, store_count, load_timespec,
    store_timespec, store_tv_sec, store_tv_nsec,
    nilfs_atime_get_entry_in_block,
    bindM, retM, effect, inspect;
  run_world.

Ltac tidy_trace := rewrite <- ?app_assoc; cbn [app].

Lemma world_eq w1 w2 :
  mdt_blocks w1 = mdt_blocks w2 -> mdt_scratch w1 = mdt_scratch w2 ->
  mdt_get_fault w1 = mdt_get_fault w2 ->
  mdt_delete_fault w1 = mdt_delete_fault w2 ->
  mi_sem w1 = mi_sem w2 -> bh_held w1 = bh_held w2 ->
  kmapped w1 = kmapped w2 -> bh_dirty w1 = bh_dirty w2 ->
  mdt_dirty w1 = mdt_dirty w2 -> trace w1 = trace w2 -> w1 = w2.
Proof. destruct w1, w2; cbn; intros; by subst. Qed.

Ltac same_world :=
  apply world_eq; run_world; rewrite ?drop_one_head; try tidy_trace;
  try reflexivity.

Lemma nilfs_atime_get_block_failure atimefile inode_num w f :
  mdt_get_fault w !! nilfs_atime_get_block_number inode_num = Some f ->
  nilfs_atime_get_block atimefile inode_num w
  = (inl (- fault_errno f),
     after_failure w (nilfs_atime_get_block_number inode_num)).
Proof.
  intros Hf. run_code. rewrite Hf. run_world. f_equal. same_world.
Qed.

Lemma nilfs_atime_get_block_success atimefile inode_num w :
  mdt_get_fault w !! nilfs_atime_get_block_number inode_num = None ->
  nilfs_atime_get_block atimefile inode_num w
  = (inr (nilfs_atime_get_block_number inode_num,
          BufferHead (nilfs_atime_get_block_number inode_num)),
     after_acquire w (nilfs_atime_get_block_number inode_num)).
Proof.
  intros Hf. run_code. rewrite Hf.
  destruct (mdt_blocks w !! nilfs_atime_get_block_number inode_num)
    as [blk|] eqn:Hb; run_world; f_equal; same_world;
    unfold block_at; rewrite Hb; cbn [default].
  - by rewrite insert_id.
  - done.
Qed.

Ltac mem_simpl :=
  repeat (progress (rewrite ?alter_insert_eq, ?lookup_insert_eq,
                      ?insert_insert_eq;
                    cbn [from_option id]; run_world)).

Lemma fill_acquired atimefile inode_p ino w :
  atimefile <> inode_p ->
  mdt_get_fault w !! nilfs_atime_get_block_number (i_ino ino) = None ->
  let b := nilfs_atime_get_block_number (i_ino ino) in
  let i := snd (slot_of (i_ino ino)) in
  let blk := fill_block i (i_mtime ino) (block_at w b) in
  nilfs_atime_fill_inode (Some atimefile) inode_p ino w
  = ((0, set_i_atime ino (default timespec_zero (entries blk !! i))),
     after_op w b (<[b := blk]> (mdt_blocks w))
       (acquire_events b ++ release_events b)).
Proof.
  intros Hne Hf b i blk.
  unfold nilfs_atime_fill_inode.
  rewrite (proj2 (Z.eqb_neq _ _) Hne).
  unfold bindM at 1. rewrite nilfs_atime_get_block_success by done.
  fold b. run_code. unfold entry_at, block_at. mem_simpl.
  subst blk i. unfold fill_block, slot_of, nilfs_atime_get_entry_in_block.
  cbn [snd].
  destruct (timespec_is_zero _) eqn:Hz; mem_simpl;
    f_equal; try (same_world; by mem_simpl).
Qed.

Lemma update_acquired atimefile ino w :
  mdt_get_fault w !! nilfs_atime_get_block_number (i_ino ino) = None ->
  let b := nilfs_atime_get_block_number (i_ino ino) in
  let i := snd (slot_of (i_ino ino)) in
  let blk := update_block i (i_atime ino) (block_at w b) in
  nilfs_atime_update_from_inode atimefile ino w
  = (0, after_op w b (<[b := blk]> (mdt_blocks w))
          (acquire_events b ++ release_events b)).
Proof.
  intros Hf b i blk.
  unfold nilfs_atime_update_from_inode.
  unfold bindM at 1. rewrite nilfs_atime_get_block_success by done.
  fold b. run_code. mem_simpl.
  f_equal. same_world. by mem_simpl.
Qed.

Lemma zero_entry (l : list timespec) i :
  alter (fun e => Timespec (tv_sec e) 0) i
    (alter (fun e => Timespec 0 (tv_nsec e)) i l)
  = <[i := timespec_zero]> l.
Proof.
  revert i. induction l as [|e l IH]; intros [|i]; try done.
  cbn. f_equal. apply IH.
Qed.

Lemma delete_acquired atimefile ino w :
  mdt_get_fault w !! nilfs_atime_get_block_number (i_ino ino) = None ->
  let b := nilfs_atime_get_block_number (i_ino ino) in
  let i := snd (slot_of (i_ino ino)) in
  let blk := delete_block i (block_at w b) in
  nilfs_atime_delete_inode_entry atimefile ino w
  = (0,
     if 0 =? count (header blk) then
       after_op w b
         (match mdt_delete_fault w !! b with
          | Some _ => <[b := blk]> (mdt_blocks w)
          | None => delete b (mdt_blocks w)
          end)
         (acquire_events b ++ release_events b ++ [EvMdtDeleteBlock b])
     else
       after_op w b (<[b := blk]> (mdt_blocks w))
         (acquire_events b ++ release_events b)).
Proof.
  intros Hf b i blk.
  unfold nilfs_atime_delete_inode_entry.
  unfold bindM at 1. rewrite nilfs_atime_get_block_success by done.
  fold b. run_code. unfold block_at. mem_simpl. fold (block_at w b).
  subst blk i. unfold delete_block, slot_of, nilfs_atime_get_entry_in_block.
  run_world.
  destruct (0 =? _) eqn:Hc; run_world.
  - destruct (mdt_delete_fault w !! b) eqn:Hd; run_world;
      f_equal; same_world; mem_simpl; rewrite ?zero_entry; try done.
    by rewrite delete_insert_eq.
  - f_equal. same_world. mem_simpl. by rewrite zero_entry.
Qed.

(** ** When the acquisition fails *)

Lemma fill_failed atimefile inode_p ino w f :
  atimefile <> inode_p ->
  mdt_get_fault w !! nilfs_atime_get_block_number (i_ino ino) = Some f ->
  nilfs_atime_fill_inode (Some atimefile) inode_p ino w
  = ((- fault_errno f, ino),
     after_failure w (nilfs_atime_get_block_number (i_ino ino))).
Proof.
  intros Hne Hf. unfold nilfs_atime_fill_inode.
  rewrite (proj2 (Z.eqb_neq _ _) Hne).
  unfold bindM. by rewrite (nilfs_atime_get_block_failure _ _ _ f).
Qed.

Lemma update_failed atimefile ino w f :
  mdt_get_fault w !! nilfs_atime_get_block_number (i_ino ino) = Some f ->
  nilfs_atime_update_from_inode atimefile ino w
  = (- fault_errno f,
     after_failure w (nilfs_atime_get_block_number (i_ino ino))).
Proof.
  intros Hf. unfold nilfs_atime_update_from_inode, bindM.
  by rewrite (nilfs_atime_get_block_failure _ _ _ f).
Qed.

Lemma delete_failed atimefile ino w f :
  mdt_get_fault w !! nilfs_atime_get_block_number (i_ino ino) = Some f ->
  nilfs_atime_delete_inode_entry atimefile ino w
  = (- fault_errno f,
     after_failure w (nilfs_atime_get_block_number (i_ino ino))).
Proof.
  intros Hf. unfold nilfs_atime_delete_inode_entry, bindM.
  by rewrite (nilfs_atime_get_block_failure _ _ _ f).
Qed.

(** [nilfs_atime_get_block] fails exactly when the backing layer does. *)
Lemma nilfs_atime_get_block_inl atimefile inode_num w err :
  fst (nilfs_atime_get_block atimefile inode_num w) = inl err ->
  exists f,
    mdt_get_fault w !! nilfs_atime_get_block_number inode_num = Some f
    /\ err = - fault_errno f.
Proof.
  destruct (mdt_get_fault w !! nilfs_atime_get_block_number inode_num)
    as [f|] eqn:Hf.
  - rewrite (nilfs_atime_get_block_failure _ _ _ f) by done.
    cbn [fst]. intros [= <-]. by exists f.
  - rewrite nilfs_atime_get_block_success by done. done.
Qed.

(** ** Entries and counters *)

Lemma timespec_is_zero_true t :
  timespec_is_zero t = true <-> t = timespec_zero.
Proof.
  destruct t as [s n]. unfold timespec_is_zero, timespec_zero.
  cbn [tv_sec tv_nsec].
  rewrite andb_true_iff, !Z.eqb_eq. split.
  - intros [<- <-]. done.
  - intros [= -> ->]. done.
Qed.

Lemma timespec_is_zero_false t :
  timespec_is_zero t = false <-> t <> timespec_zero.
Proof.
  rewrite <- timespec_is_zero_true. destruct (timespec_is_zero t); naive_solver.
Qed.

Lemma slot_index_lt inode_num :
  (snd (slot_of inode_num) < Z.to_nat NILFS_ENTRIES_IN_ATIME_BLOCK)%nat.
Proof.
  unfold slot_of, nilfs_atime_get_entry_in_block. cbn [snd].
  rewrite entries_in_block.
  pose proof (Z.mod_pos_bound inode_num 31). lia.
Qed.

Lemma zero_block_entry i :
  default timespec_zero (entries zero_block !! i) = timespec_zero.
Proof.
  unfold zero_block. cbn [entries].
  destruct (replicate _ _ !! i) as [e|] eqn:He; [|done].
  apply lookup_replicate in He as [-> _]. done.
Qed.

Lemma zero_block_wf : block_wf zero_block.
Proof. unfold block_wf, zero_block. cbn [entries]. apply length_replicate. Qed.

Lemma block_at_wf w b : world_wf w -> block_wf (block_at w b).
Proof.
  intros Hw. unfold block_at.
  destruct (mdt_blocks w !! b) as [blk|] eqn:Hb; cbn [from_option id].
  - by apply (Hw b).
  - apply zero_block_wf.
Qed.

Lemma entry_at_slot w inode_num :
  entry_at w (slot_of inode_num)
  = default timespec_zero
      (entries (block_at w (nilfs_atime_get_block_number inode_num))
       !! snd (slot_of inode_num)).
Proof. done. Qed.

(** An entry that is there lives in a block that is there. *)
Lemma present_block w inode_num :
  entry_at w (slot_of inode_num) <> timespec_zero ->
  mdt_blocks w !! nilfs_atime_get_block_number inode_num
  = Some (block_at w (nilfs_atime_get_block_number inode_num)).
Proof.
  rewrite entry_at_slot. unfold block_at.
  destruct (mdt_blocks w !! _) as [blk|]; cbn [from_option id]; [done|].
  intros H. by rewrite zero_block_entry in H.
Qed.

(** ** Addressing *)

(** C3: for every inode number (an [unsigned long]), the block number times
    the entries per block plus the place in the block gives the inode
    number back, in the integers and so in machine arithmetic as well; the
    place is inside the array, and neither function can fail: the divisor
    is the constant 31. *)
Theorem addressing_recomposes (inode_num : Z) (p : block_ptr) :
  0 <= inode_num < U64_MODULUS ->
  let blk := nilfs_atime_get_block_number inode_num in
  let off := Z.of_nat (snd (nilfs_atime_get_entry_in_block p inode_num)) in
  blk * NILFS_ENTRIES_IN_ATIME_BLOCK + off = inode_num
  /\ u64 (u64 (blk * NILFS_ENTRIES_IN_ATIME_BLOCK) + off) = inode_num
  /\ blk = inode_num / NILFS_ENTRIES_IN_ATIME_BLOCK
  /\ off = inode_num mod NILFS_ENTRIES_IN_ATIME_BLOCK
  /\ 0 <= off < NILFS_ENTRIES_IN_ATIME_BLOCK
  /\ 0 <= blk <= inode_num
  /\ NILFS_ENTRIES_IN_ATIME_BLOCK <> 0.
Proof.
  intros Hr blk off.
  subst blk off.
  unfold nilfs_atime_get_block_number, nilfs_atime_get_entry_in_block, u64,
    U64_MODULUS in *.
  cbn [snd]. rewrite entries_in_block.
  pose proof (Z.mod_pos_bound inode_num 31 ltac:(lia)) as Hm.
  pose proof (Z.div_mod inode_num 31 ltac:(lia)) as Hd.
  rewrite Z2Nat.id by lia.
  assert (0 <= inode_num / 31 <= inode_num) as Hq.
  { split; [apply Z.div_pos; lia|]. apply Z.div_le_upper_bound; lia. }
  assert (inode_num / 31 * 31 + inode_num mod 31 = inode_num) as He by lia.
  repeat split; try lia.
  rewrite (Z.mod_small (inode_num / 31 * 31)) by lia.
  rewrite He. apply Z.mod_small. lia.
Qed.

Lemma addressing_recomposes_witness :
  0 <= 100 < U64_MODULUS
  /\ nilfs_atime_get_block_number 100 * NILFS_ENTRIES_IN_ATIME_BLOCK
     + Z.of_nat (snd (nilfs_atime_get_entry_in_block 0 100)) = 100.
Proof.
  assert (0 <= 100 < U64_MODULUS) as H by (unfold U64_MODULUS; lia).
  split; [exact H | exact (proj1 (addressing_recomposes 100 0 H))].
Defined.

(** ** Without an atime file *)

(** C7: when there is no atime file ([atimefile] is [NULL]), fill returns 0
    with the modification time of the inode copied to its access time, for
    every inode, and leaves the world as it found it: no block is acquired,
    written or released, and nothing is logged.  The same holds when the
    inode is the atime file itself. *)
Theorem fill_without_atime_file (inode_p : Z) (ino : inode) (w : world) :
  let r := nilfs_atime_fill_inode None inode_p ino w in
  let r' := nilfs_atime_fill_inode (Some inode_p) inode_p ino w in
  fst (fst r) = 0
  /\ i_atime (snd (fst r)) = i_mtime ino
  /\ snd (fst r) = set_i_atime ino (i_mtime ino)
  /\ snd r = w
  /\ events_since w (snd r) = []
  /\ mdt_blocks (snd r) = mdt_blocks w
  /\ bh_held (snd r) = bh_held w
  /\ r' = r.
Proof.
  unfold nilfs_atime_fill_inode. rewrite Z.eqb_refl. unfold retM.
  cbn [fst snd i_atime set_i_atime]. unfold events_since.
  rewrite drop_all. done.
Qed.

(** ** One block at a time *)

Lemma fill_frame atimefile inode_p ino w b' :
  nilfs_atime_get_block_number (i_ino ino) <> b' ->
  mdt_blocks (snd (nilfs_atime_fill_inode atimefile inode_p ino w)) !! b'
  = mdt_blocks w !! b'.
Proof.
  intros Hb. destruct atimefile as [a|]; [|done].
  destruct (Z.eq_dec a inode_p) as [->|Hne].
  { unfold nilfs_atime_fill_inode. by rewrite Z.eqb_refl. }
  destruct (mdt_get_fault w !! nilfs_atime_get_block_number (i_ino ino))
    as [f|] eqn:Hf.
  - by rewrite (fill_failed _ _ _ _ f).
  - rewrite fill_acquired by done. run_world. by rewrite lookup_insert_ne.
Qed.

Lemma update_frame atimefile ino w b' :
  nilfs_atime_get_block_number (i_ino ino) <> b' ->
  mdt_blocks (snd (nilfs_atime_update_from_inode atimefile ino w)) !! b'
  = mdt_blocks w !! b'.
Proof.
  intros Hb.
  destruct (mdt_get_fault w !! nilfs_atime_get_block_number (i_ino ino))
    as [f|] eqn:Hf.
  - by rewrite (update_failed _ _ _ f).
  - rewrite update_acquired by done. run_world. by rewrite lookup_insert_ne.
Qed.

Lemma delete_frame atimefile ino w b' :
  nilfs_atime_get_block_number (i_ino ino) <> b' ->
  mdt_blocks (snd (nilfs_atime_delete_inode_entry atimefile ino w)) !! b'
  = mdt_blocks w !! b'.
Proof.
  intros Hb.
  destruct (mdt_get_fault w !! nilfs_atime_get_block_number (i_ino ino))
    as [f|] eqn:Hf.
  - by rewrite (delete_failed _ _ _ f).
  - rewrite delete_acquired by done. cbn [snd].
    destruct (0 =? _); run_world; [|by rewrite lookup_insert_ne].
    destruct (mdt_delete_fault w !! _);
      by rewrite ?lookup_insert_ne, ?lookup_delete_ne.
Qed.

(** C9: a block of 512 bytes with its 8-byte header and 16-byte entries
    holds 31 entries; inodes 30 and 31 fall in blocks 0 and 1; and fill,
    update and delete of an inode leave every block but the inode's own as
    it was: the same counter, the same entries. *)
Theorem blocks_are_independent (atimefile : inode_ptr) (a inode_p : Z)
  (ino : inode) (w : world) (b' : Z) :
  nilfs_atime_get_block_number (i_ino ino) <> b' ->
  sizeof_nilfs_atime_block_header = 8
  /\ sizeof_timespec = 16
  /\ NILFS_ENTRIES_IN_ATIME_BLOCK = (512 - 8) / 16
  /\ NILFS_ENTRIES_IN_ATIME_BLOCK = 31
  /\ nilfs_atime_get_block_number 30 = 0
  /\ nilfs_atime_get_block_number 31 = 1
  /\ (let w' := snd (nilfs_atime_fill_inode atimefile inode_p ino w) in
      mdt_blocks w' !! b' = mdt_blocks w !! b'
      /\ count_at w' b' = count_at w b'
      /\ entries (block_at w' b') = entries (block_at w b'))
  /\ (let w' := snd (nilfs_atime_update_from_inode a ino w) in
      mdt_blocks w' !! b' = mdt_blocks w !! b'
      /\ count_at w' b' = count_at w b'
      /\ entries (block_at w' b') = entries (block_at w b'))
  /\ (let w' := snd (nilfs_atime_delete_inode_entry a ino w) in
      mdt_blocks w' !! b' = mdt_blocks w !! b'
      /\ count_at w' b' = count_at w b'
      /\ entries (block_at w' b') = entries (block_at w b')).
Proof.
  intros Hb.
  pose proof (fill_frame atimefile inode_p ino w b' Hb) as Hfill.
  pose proof (update_frame a ino w b' Hb) as Hupd.
  pose proof (delete_frame a ino w b' Hb) as Hdel.
  unfold count_at, block_at. cbn zeta.
  rewrite Hfill, Hupd, Hdel. done.
Qed.

Lemma blocks_are_independent_witness :
  nilfs_atime_get_block_number (i_ino (inode_at 31 (Timespec 2500 0))) <> 0
  /\ count_at
       (snd (nilfs_atime_delete_inode_entry 7
               (inode_at 31 (Timespec 2500 0)) filled_world)) 0
     = count_at filled_world 0.
Proof.
  assert (nilfs_atime_get_block_number
            (i_ino (inode_at 31 (Timespec 2500 0))) <> 0) as H
    by (vm_compute; discriminate).
  split; [exact H|].
  destruct (blocks_are_independent None 7 8
              (inode_at 31 (Timespec 2500 0)) filled_world 0 H)
    as (_ & _ & _ & _ & _ & _ & _ & _ & (_ & Hc & _)).
  exact Hc.
Defined.

(** ** What the log shows *)

Lemma events_since_after_op w b blocks' evs :
  events_since w (after_op w b blocks' evs) = evs.
Proof. unfold events_since. run_world. apply drop_app_length. Qed.

Lemma events_since_after_failure w b :
  events_since w (after_failure w b)
  = [EvDownWrite; EvMdtGetBlock b; EvUpWrite].
Proof. unfold events_since. run_world. apply drop_app_length. Qed.

Lemma after_failure_untouched w b : store_untouched w (after_failure w b).
Proof.
  unfold store_untouched. rewrite events_since_after_failure.
  run_world. done.
Qed.

(** ** Failure of the acquisition *)

(** C8: when [nilfs_atime_get_block] fails, the error is -EIO or -ENOMEM;
    fill, update and delete return that very error at once; no buffer is
    held or mapped that was not before, the semaphore is free, and no
    entry, counter or dirty mark has changed. *)
Theorem acquisition_failure_is_atomic (atimefile inode_p : Z) (ino : inode)
  (w : world) (err : Z) :
  atimefile <> inode_p ->
  fst (nilfs_atime_get_block atimefile (i_ino ino) w) = inl err ->
  (err = - EIO \/ err = - ENOMEM)
  /\ err < 0
  /\ store_untouched w (snd (nilfs_atime_get_block atimefile (i_ino ino) w))
  /\ (let r := nilfs_atime_fill_inode (Some atimefile) inode_p ino w in
      fst r = (err, ino) /\ store_untouched w (snd r))
  /\ (let r := nilfs_atime_update_from_inode atimefile ino w in
      fst r = err /\ store_untouched w (snd r))
  /\ (let r := nilfs_atime_delete_inode_entry atimefile ino w in
      fst r = err /\ store_untouched w (snd r)).
Proof.
  intros Hne Herr.
  apply nilfs_atime_get_block_inl in Herr as (f & Hf & ->).
  rewrite (nilfs_atime_get_block_failure _ _ _ f) by done.
  rewrite (fill_failed _ _ _ _ f), (update_failed _ _ _ f),
    (delete_failed _ _ _ f) by done.
  cbn [fst snd].
  pose proof (after_failure_untouched w
                (nilfs_atime_get_block_number (i_ino ino))) as Hu.
  split; [destruct f; [by left | by right]|].
  split; [destruct f; unfold fault_errno, EIO, ENOMEM; lia|].
  auto.
Qed.

Lemma acquisition_failure_is_atomic_witness :
  fst (nilfs_atime_get_block 7 (i_ino inode_ten) io_fault_world)
  = inl (- EIO)
  /\ fst (nilfs_atime_delete_inode_entry 7 inode_ten io_fault_world) = - EIO
  /\ store_untouched io_fault_world
       (snd (nilfs_atime_delete_inode_entry 7 inode_ten io_fault_world)).
Proof.
  assert ((7 : Z) <> 8) as Hne by lia.
  assert (fst (nilfs_atime_get_block 7 (i_ino inode_ten) io_fault_world)
          = inl (- EIO)) as Herr by (vm_compute; reflexivity).
  destruct (acquisition_failure_is_atomic 7 8 inode_ten io_fault_world
              (- EIO) Hne Herr) as (_ & _ & _ & _ & _ & Hd & Hu).
  split; [exact Herr|]. split; [exact Hd | exact Hu].
Defined.

(** Each operation either returns 0 or fails with the store untouched. *)
Lemma operations_complete_or_fail (atimefile : inode_ptr) (a inode_p : Z)
  (ino : inode) (w : world) :
  (let r := nilfs_atime_fill_inode atimefile inode_p ino w in
   fst (fst r) = 0 \/ fst (fst r) < 0 /\ store_untouched w (snd r))
  /\ (let r := nilfs_atime_update_from_inode a ino w in
      fst r = 0 \/ fst r < 0 /\ store_untouched w (snd r))
  /\ (let r := nilfs_atime_delete_inode_entry a ino w in
      fst r = 0 \/ fst r < 0 /\ store_untouched w (snd r)).
Proof.
  assert (forall f, - fault_errno f < 0) as Hneg
    by (intros []; unfold fault_errno, EIO, ENOMEM; lia).
  repeat split.
  - destruct atimefile as [af|]; [|by left].
    destruct (Z.eq_dec af inode_p) as [->|Hne].
    { left. unfold nilfs_atime_fill_inode. by rewrite Z.eqb_refl. }
    destruct (mdt_get_fault w !! nilfs_atime_get_block_number (i_ino ino))
      as [f|] eqn:Hf.
    + right. rewrite (fill_failed _ _ _ _ f) by done. cbn [fst snd].
      split; [apply Hneg | apply after_failure_untouched].
    + left. by rewrite fill_acquired.
  - destruct (mdt_get_fault w !! nilfs_atime_get_block_number (i_ino ino))
      as [f|] eqn:Hf.
    + right. rewrite (update_failed _ _ _ f) by done. cbn [fst snd].
      split; [apply Hneg | apply after_failure_untouched].
    + left. by rewrite update_acquired.
  - destruct (mdt_get_fault w !! nilfs_atime_get_block_number (i_ino ino))
      as [f|] eqn:Hf.
    + right. rewrite (delete_failed _ _ _ f) by done. cbn [fst snd].
      split; [apply Hneg | apply after_failure_untouched].
    + left. by rewrite delete_acquired.
Qed.

(** ** Delete *)

Lemma zeroed_entry_reads_zero (l : list timespec) i :
  default timespec_zero (<[i := timespec_zero]> l !! i) = timespec_zero.
Proof.
  destruct (decide (i < length l)%nat) as [Hi|Hi].
  - by rewrite list_lookup_insert_eq.
  - rewrite list_insert_ge by lia. rewrite lookup_ge_None_2 by lia. done.
Qed.

Lemma count_at_after_op w b blocks' evs b' :
  count_at (after_op w b blocks' evs) b'
  = count (header (default zero_block (blocks' !! b'))).
Proof. done. Qed.

Lemma entry_at_after_op w b blocks' evs p :
  entry_at (after_op w b blocks' evs) p
  = default timespec_zero
      (entries (default zero_block (blocks' !! fst p)) !! snd p).
Proof. done. Qed.

(** What a delete that acquired its block leaves behind. *)
Lemma delete_effect atimefile ino w :
  mdt_get_fault w !! nilfs_atime_get_block_number (i_ino ino) = None ->
  let b := nilfs_atime_get_block_number (i_ino ino) in
  let r := nilfs_atime_delete_inode_entry atimefile ino w in
  fst r = 0
  /\ count_at (snd r) b = u64 (count_at w b - 1)
  /\ entry_at (snd r) (slot_of (i_ino ino)) = timespec_zero
  /\ mdt_get_fault (snd r) = mdt_get_fault w
  /\ bh_held (snd r) = bh_held w
  /\ kmapped (snd r) = kmapped w.
Proof.
  intros Hf b r. subst r. rewrite delete_acquired by done. fold b.
  cbn [fst snd]. split; [done|].
  unfold delete_block. cbn [header count]. fold (count_at w b).
  destruct (0 =? u64 (count_at w b - 1)) eqn:Hc.
  - apply Z.eqb_eq in Hc.
    rewrite count_at_after_op, entry_at_after_op.
    unfold slot_of, nilfs_atime_get_entry_in_block. cbn [fst snd]. fold b.
    destruct (mdt_delete_fault w !! b).
    + rewrite lookup_insert_eq. cbn [from_option id header count entries].
      by rewrite zeroed_entry_reads_zero.
    + rewrite lookup_delete_eq. cbn [from_option id].
      by rewrite zero_block_entry.
  - rewrite count_at_after_op, entry_at_after_op.
    unfold slot_of, nilfs_atime_get_entry_in_block. cbn [fst snd]. fold b.
    rewrite lookup_insert_eq. cbn [from_option id header count entries].
    by rewrite zeroed_entry_reads_zero.
Qed.

(** What a delete that acquired its block logged. *)
Lemma delete_events atimefile ino w :
  mdt_get_fault w !! nilfs_atime_get_block_number (i_ino ino) = None ->
  let b := nilfs_atime_get_block_number (i_ino ino) in
  events_since w (snd (nilfs_atime_delete_inode_entry atimefile ino w))
  = acquire_events b ++ release_events b
    ++ (if 0 =? u64 (count_at w b - 1) then [EvMdtDeleteBlock b] else []).
Proof.
  intros Hf b. rewrite delete_acquired by done. fold b. cbn [snd].
  unfold delete_block. cbn [header count]. fold (count_at w b).
  destruct (0 =? u64 (count_at w b - 1));
    rewrite events_since_after_op; [done|]. by rewrite app_nil_r.
Qed.

(** C10: once the block is acquired, delete returns 0 whatever happens
    next.  In particular, when the counter goes from 1 to 0 and the backing
    layer cannot delete the block, the deletion is requested, it fails with
    a negative error, the block stays in the file, and delete still
    returns 0. *)
Theorem delete_discards_reclaim_result (atimefile : Z) (ino : inode)
  (w : world) :
  mdt_get_fault w !! nilfs_atime_get_block_number (i_ino ino) = None ->
  let b := nilfs_atime_get_block_number (i_ino ino) in
  let r := nilfs_atime_delete_inode_entry atimefile ino w in
  fst r = 0
  /\ forall f,
       count_at w b = 1 ->
       mdt_delete_fault w !! b = Some f ->
       reclaim_requests (events_since w (snd r)) = [b]
       /\ (forall w0, mdt_delete_fault w0 = mdt_delete_fault w ->
             fst (nilfs_mdt_delete_block b w0) = - fault_errno f
             /\ fst (nilfs_mdt_delete_block b w0) < 0)
       /\ is_Some (mdt_blocks (snd r) !! b)
       /\ fst r = 0.
Proof.
  intros Hf b r.
  destruct (delete_effect atimefile ino w Hf) as (Hr & _).
  split; [exact Hr|]. intros f Hc Hd.
  split; [|split; [|split; [|exact Hr]]].
  - subst r. rewrite delete_events by done. fold b. rewrite Hc. done.
  - intros w0 Hw0. unfold nilfs_mdt_delete_block. rewrite Hw0, Hd.
    cbn [fst]. split; [done|].
    destruct f; unfold fault_errno, EIO, ENOMEM; lia.
  - subst r. rewrite delete_acquired by done. fold b. cbn [snd].
    unfold delete_block. cbn [header count]. fold (count_at w b).
    rewrite Hc, Hd. change (0 =? u64 (1 - 1)) with true. cbn iota.
    run_world. rewrite lookup_insert_eq. done.
Qed.

Lemma delete_discards_reclaim_result_witness :
  fst (nilfs_atime_delete_inode_entry 7 inode_ten stuck_filled_world) = 0
  /\ reclaim_requests
       (events_since stuck_filled_world
          (snd (nilfs_atime_delete_inode_entry 7 inode_ten
                  stuck_filled_world))) = [0]
  /\ is_Some
       (mdt_blocks
          (snd (nilfs_atime_delete_inode_entry 7 inode_ten
                  stuck_filled_world)) !! 0).
Proof.
  assert (mdt_get_fault stuck_filled_world
            !! nilfs_atime_get_block_number (i_ino inode_ten) = None) as Hf
    by (vm_compute; reflexivity).
  destruct (delete_discards_reclaim_result 7 inode_ten stuck_filled_world Hf)
    as (Hr & Hrec).
  destruct (Hrec FaultIO) as (Hq & _ & Hs & _);
    [vm_compute; reflexivity | vm_compute; reflexivity |].
  split; [exact Hr|]. split; [exact Hq | exact Hs].
Defined.

(** C4: a delete that takes the counter of its block from 1 to 0 logs the
    acquisition, the release of the block, and then one request to delete
    that block and no other; the request comes while no buffer of the
    block is held.  A delete that leaves the counter at another value, or
    that fails to acquire the block, requests no deletion. *)
Theorem delete_reclaims_after_release (atimefile : Z) (ino : inode)
  (w : world) :
  existsb (Z.eqb (nilfs_atime_get_block_number (i_ino ino))) (bh_held w)
  = false ->
  let b := nilfs_atime_get_block_number (i_ino ino) in
  let w' := snd (nilfs_atime_delete_inode_entry atimefile ino w) in
  (mdt_get_fault w !! b = None -> count_at w b = 1 ->
     count_at w' b = 0
     /\ events_since w w'
        = acquire_events b ++ release_events b ++ [EvMdtDeleteBlock b]
     /\ reclaim_requests (events_since w w') = [b]
     /\ reclaims_released (bh_held w) (events_since w w') = true
     /\ bh_held w' = bh_held w /\ kmapped w' = kmapped w)
  /\ (mdt_get_fault w !! b = None -> u64 (count_at w b - 1) <> 0 ->
        count_at w' b = u64 (count_at w b - 1)
        /\ events_since w w' = acquire_events b ++ release_events b
        /\ reclaim_requests (events_since w w') = [])
  /\ (mdt_get_fault w !! b <> None ->
        reclaim_requests (events_since w w') = []).
Proof.
  intros Hheld b w'. subst w'. split; [|split].
  - intros Hf Hc.
    destruct (delete_effect atimefile ino w Hf) as (_ & Hn & _ & _ & Hh & Hk).
    fold b in Hn. rewrite Hc in Hn.
    rewrite delete_events by done. fold b. rewrite Hc.
    change (0 =? u64 (1 - 1)) with true. cbn iota.
    split; [exact Hn|]. split; [done|]. split; [done|].
    split; [|by split].
    unfold acquire_events, release_events. cbn [app reclaims_released].
    rewrite drop_one_head. cbn [reclaims_released].
    fold b in Hheld. by rewrite Hheld.
  - intros Hf Hc.
    destruct (delete_effect atimefile ino w Hf) as (_ & Hn & _).
    rewrite delete_events by done. fold b.
    destruct (0 =? u64 (count_at w b - 1)) eqn:Hz.
    { apply Z.eqb_eq in Hz. congruence. }
    rewrite app_nil_r. done.
  - intros Hf. destruct (mdt_get_fault w !! b) as [f|] eqn:Hg; [|done].
    rewrite (delete_failed _ _ _ f) by done. cbn [snd].
    by rewrite events_since_after_failure.
Qed.

Lemma delete_reclaims_after_release_witness :
  existsb (Z.eqb (nilfs_atime_get_block_number (i_ino inode_ten)))
    (bh_held filled_world) = false
  /\ reclaim_requests
       (events_since filled_world
          (snd (nilfs_atime_delete_inode_entry 7 inode_ten filled_world)))
     = [0]
  /\ reclaims_released (bh_held filled_world)
       (events_since filled_world
          (snd (nilfs_atime_delete_inode_entry 7 inode_ten filled_world)))
     = true.
Proof.
  assert (existsb (Z.eqb (nilfs_atime_get_block_number (i_ino inode_ten)))
            (bh_held filled_world) = false) as Hh
    by (vm_compute; reflexivity).
  destruct (delete_reclaims_after_release 7 inode_ten filled_world Hh)
    as (Hone & _).
  destruct Hone as (_ & _ & Hq & Hrel & _);
    [vm_compute; reflexivity | vm_compute; reflexivity |].
  split; [exact Hh|]. split; [exact Hq | exact Hrel].
Defined.

(** C5: delete never refuses.  Called on an inode whose block counts 0
    valid entries, as the second of two deletes in a row is, it returns 0
    and leaves the counter at 2^64 - 1; in general the second delete
    returns 0 and leaves the counter one less, modulo 2^64, than the first
    left it. *)
Theorem double_delete_wraps (atimefile : Z) (ino : inode) (w : world) :
  mdt_get_fault w !! nilfs_atime_get_block_number (i_ino ino) = None ->
  let b := nilfs_atime_get_block_number (i_ino ino) in
  let r1 := nilfs_atime_delete_inode_entry atimefile ino w in
  let r2 := nilfs_atime_delete_inode_entry atimefile ino (snd r1) in
  fst r1 = 0
  /\ fst r2 = 0
  /\ count_at (snd r2) b = u64 (count_at (snd r1) b - 1)
  /\ (count_at (snd r1) b = 0 ->
        count_at (snd r2) b = 2 ^ 64 - 1
        /\ count_at (snd r2) b = U64_MODULUS - 1
        /\ reclaim_requests (events_since (snd r1) (snd r2)) = [])
  /\ (count_at w b = 0 -> count_at (snd r1) b = 2 ^ 64 - 1)
  /\ (count_at w b = 1 ->
        count_at (snd r1) b = 0 /\ count_at (snd r2) b = 2 ^ 64 - 1).
Proof.
  intros Hf b r1 r2.
  destruct (delete_effect atimefile ino w Hf) as (H1 & Hc1 & _ & Hf1 & _).
  fold b r1 in H1, Hc1, Hf1.
  assert (mdt_get_fault (snd r1) !! b = None) as Hf' by by rewrite Hf1.
  destruct (delete_effect atimefile ino (snd r1) Hf') as (H2 & Hc2 & _).
  fold b r2 in H2, Hc2.
  split; [done|]. split; [done|]. split; [done|]. split.
  - intros Hz. rewrite Hc2, Hz. split; [done|]. split; [done|].
    subst r2. rewrite delete_events by done. fold b. rewrite Hz. done.
  - split.
    + intros Hz. rewrite Hc1, Hz. done.
    + intros Hone. rewrite Hc1, Hone in Hc2. rewrite Hc1, Hone, Hc2. done.
Qed.

Lemma double_delete_wraps_witness :
  mdt_get_fault filled_world
    !! nilfs_atime_get_block_number (i_ino inode_ten) = None
  /\ fst (nilfs_atime_delete_inode_entry 7 inode_ten
            (snd (nilfs_atime_delete_inode_entry 7 inode_ten filled_world)))
     = 0
  /\ count_at
       (snd (nilfs_atime_delete_inode_entry 7 inode_ten
               (snd (nilfs_atime_delete_inode_entry 7 inode_ten
                       filled_world)))) 0
     = 18446744073709551615.
Proof.
  assert (mdt_get_fault filled_world
            !! nilfs_atime_get_block_number (i_ino inode_ten) = None) as Hf
    by (vm_compute; reflexivity).
  destruct (double_delete_wraps 7 inode_ten filled_world Hf)
    as (_ & H2 & _ & Hz & _).
  destruct Hz as (Hw & _); [vm_compute; reflexivity|].
  split; [exact Hf|]. split; [exact H2 | exact Hw].
Defined.

(** ** Fill *)

(** What a fill that acquired its block leaves behind. *)
Lemma fill_effect atimefile inode_p ino w :
  atimefile <> inode_p ->
  mdt_get_fault w !! nilfs_atime_get_block_number (i_ino ino) = None ->
  let b := nilfs_atime_get_block_number (i_ino ino) in
  let i := snd (slot_of (i_ino ino)) in
  let r := nilfs_atime_fill_inode (Some atimefile) inode_p ino w in
  fst (fst r) = 0
  /\ snd (fst r) = set_i_atime ino (entry_at (snd r) (slot_of (i_ino ino)))
  /\ block_at (snd r) b = fill_block i (i_mtime ino) (block_at w b)
  /\ mdt_blocks (snd r)
     = <[b := fill_block i (i_mtime ino) (block_at w b)]> (mdt_blocks w)
  /\ mdt_get_fault (snd r) = mdt_get_fault w
  /\ bh_held (snd r) = bh_held w
  /\ kmapped (snd r) = kmapped w.
Proof.
  intros Hne Hf b i r. subst r. rewrite fill_acquired by done.
  fold b i. cbn [fst snd].
  set (blk := fill_block i (i_mtime ino) (block_at w b)).
  set (w' := after_op w b (<[b := blk]> (mdt_blocks w)) _).
  assert (block_at w' b = blk) as Hb.
  { unfold block_at, w'. run_world. by rewrite lookup_insert_eq. }
  split; [done|]. split.
  { rewrite entry_at_slot. fold b i. by rewrite Hb. }
  split; [exact Hb|]. done.
Qed.

(** C2: fill on an absent entry writes the modification time into the
    slot, adds one to the counter of the block (in [__u64] arithmetic) and
    hands the modification time back as the access time; fill on a present
    entry leaves every block as it was and hands back the time stored.
    Hence once a fill has handed back a valid time, a second fill of the
    same inode number with another modification time leaves every block as
    it was and hands back the same time. *)
Theorem fill_reads_or_initializes (atimefile inode_p : Z) (ino : inode)
  (w : world) :
  atimefile <> inode_p ->
  world_wf w ->
  mdt_get_fault w !! nilfs_atime_get_block_number (i_ino ino) = None ->
  let b := nilfs_atime_get_block_number (i_ino ino) in
  let slot := slot_of (i_ino ino) in
  let r := nilfs_atime_fill_inode (Some atimefile) inode_p ino w in
  fst (fst r) = 0
  /\ (absent w (i_ino ino) ->
        entry_at (snd r) slot = i_mtime ino
        /\ count_at (snd r) b = u64 (count_at w b + 1)
        /\ (count_at w b + 1 < U64_MODULUS -> 0 <= count_at w b ->
              count_at (snd r) b = count_at w b + 1)
        /\ i_atime (snd (fst r)) = i_mtime ino)
  /\ (~ absent w (i_ino ino) ->
        mdt_blocks (snd r) = mdt_blocks w
        /\ entry_at (snd r) slot = entry_at w slot
        /\ count_at (snd r) b = count_at w b
        /\ i_atime (snd (fst r)) = entry_at w slot)
  /\ (forall ino2 : inode,
        i_ino ino2 = i_ino ino ->
        i_atime (snd (fst r)) <> timespec_zero ->
        let r2 := nilfs_atime_fill_inode (Some atimefile) inode_p ino2
                    (snd r) in
        fst (fst r2) = 0
        /\ mdt_blocks (snd r2) = mdt_blocks (snd r)
        /\ i_atime (snd (fst r2)) = i_atime (snd (fst r))).
Proof.
  intros Hne Hwf Hf b slot r.
  destruct (fill_effect atimefile inode_p ino w Hne Hf)
    as (H0 & Hino & Hblk & Hmap & Hfault & _).
  fold b r slot in H0, Hino, Hblk, Hmap, Hfault.
  assert (forall w0 : world,
            entry_at w0 slot
            = default timespec_zero
                (entries (block_at w0 b) !! snd slot)) as Hentry by done.
  assert (forall (ino0 : inode) (w0 : world),
            i_ino ino0 = i_ino ino ->
            mdt_get_fault w0 !! b = None ->
            entry_at w0 slot <> timespec_zero ->
            let r0 := nilfs_atime_fill_inode (Some atimefile) inode_p ino0 w0 in
            fst (fst r0) = 0
            /\ mdt_blocks (snd r0) = mdt_blocks w0
            /\ i_atime (snd (fst r0)) = entry_at w0 slot) as Hpresent.
  { intros ino0 w0 Hsame Hf0 Hp r0. subst r0 b slot. rewrite <- Hsame in *.
    destruct (fill_effect atimefile inode_p ino0 w0 Hne Hf0)
      as (H0' & Hino' & Hblk' & Hmap' & _).
    assert (fill_block (snd (slot_of (i_ino ino0))) (i_mtime ino0)
              (block_at w0 (nilfs_atime_get_block_number (i_ino ino0)))
            = block_at w0 (nilfs_atime_get_block_number (i_ino ino0)))
      as Hsame_blk.
    { unfold fill_block. rewrite <- entry_at_slot.
      by rewrite (proj2 (timespec_is_zero_false _) Hp). }
    rewrite Hsame_blk in Hmap', Hblk'.
    split; [done|]. split.
    - rewrite Hmap'. apply insert_id. by apply present_block.
    - rewrite Hino'. cbn [i_atime set_i_atime].
      by rewrite !entry_at_slot, Hblk'. }
  split; [done|]. split; [|split].
  - intros Habs. unfold absent in Habs. fold slot in Habs.
    assert (fill_block (snd slot) (i_mtime ino) (block_at w b)
            = {| header := {| count := u64 (count_at w b + 1) |};
                 entries := <[snd slot := i_mtime ino]>
                              (entries (block_at w b)) |}) as Hfb.
    { unfold fill_block. rewrite <- Hentry, Habs. done. }
    assert (entry_at (snd r) slot = i_mtime ino) as He.
    { rewrite Hentry, Hblk, Hfb. cbn [entries].
      rewrite list_lookup_insert_eq; [done|].
      rewrite (block_at_wf w b Hwf). apply slot_index_lt. }
    split; [done|]. split; [|split].
    + unfold count_at at 1. by rewrite Hblk, Hfb.
    + intros Hlt Hge. unfold count_at at 1. rewrite Hblk, Hfb.
      cbn [header count]. unfold u64. apply Z.mod_small. lia.
    + by rewrite Hino, He.
  - intros Hp. unfold absent in Hp. fold slot in Hp.
    destruct (Hpresent ino w eq_refl Hf Hp) as (_ & Hm & Ha).
    fold r in Hm, Ha.
    split; [done|]. split; [|split; [|done]].
    + unfold entry_at, block_at. by rewrite Hm.
    + unfold count_at, block_at. by rewrite Hm.
  - intros ino2 Hsame Hvalid r2.
    assert (entry_at (snd r) slot = i_atime (snd (fst r))) as He
      by by rewrite Hino.
    rewrite <- He in Hvalid.
    destruct (Hpresent ino2 (snd r) Hsame) as (H20 & H2m & H2a);
      [by rewrite Hfault | done |].
    fold r2 in H20, H2m, H2a.
    split; [done|]. split; [done|]. by rewrite H2a.
Qed.

(** ** The counter and the valid entries *)

Lemma live_entries_bounds (l : list timespec) :
  0 <= live_entries l <= Z.of_nat (length l).
Proof.
  induction l as [|e l IH]; cbn [live_entries length]; [lia|].
  destruct (timespec_is_zero e); lia.
Qed.

Lemma live_entries_replicate n :
  live_entries (replicate n timespec_zero) = 0.
Proof. induction n as [|n IH]; [done|]. cbn. exact IH. Qed.

(** Writing one entry changes the number of valid entries by what the
    entry was and what it becomes. *)
Lemma live_entries_insert (l : list timespec) (i : nat) (e : timespec) :
  (i < length l)%nat ->
  live_entries (<[i := e]> l)
  = live_entries l
    - (if timespec_is_zero (default timespec_zero (l !! i)) then 0 else 1)
    + (if timespec_is_zero e then 0 else 1).
Proof.
  revert i. induction l as [|x l IH]; intros i Hi; cbn [length] in Hi.
  - lia.
  - destruct i as [|i].
    + cbn [live_entries]. change (<[0%nat := e]> (x :: l)) with (e :: l).
      cbn [live_entries lookup list_lookup from_option id]. lia.
    + change (<[S i := e]> (x :: l)) with (x :: <[i := e]> l).
      cbn [live_entries]. rewrite IH by lia.
      change ((x :: l) !! S i) with (l !! i). lia.
Qed.

Lemma zero_block_ok : block_ok zero_block.
Proof.
  split; [apply zero_block_wf|]. unfold zero_block. cbn [header count entries].
  by rewrite live_entries_replicate.
Qed.

Lemma block_at_ok w b : world_ok w -> block_ok (block_at w b).
Proof.
  intros Hw. unfold block_at.
  destruct (mdt_blocks w !! b) as [blk|] eqn:Hb; cbn [from_option id].
  - by apply (Hw b).
  - apply zero_block_ok.
Qed.

Lemma fresh_store_ok w : fresh_store w -> world_ok w.
Proof.
  intros Hw b blk Hb. rewrite (Hw b blk Hb). apply zero_block_ok.
Qed.

Lemma fill_block_ok i mtime blk :
  block_ok blk ->
  (i < Z.to_nat NILFS_ENTRIES_IN_ATIME_BLOCK)%nat ->
  timespec_is_zero mtime = false ->
  block_ok (fill_block i mtime blk).
Proof.
  intros [Hwf Hc] Hi Hm. unfold fill_block.
  destruct (timespec_is_zero (default timespec_zero (entries blk !! i)))
    eqn:Hz; [|by split].
  unfold block_wf in Hwf.
  split.
  - unfold block_wf. cbn [entries]. by rewrite length_insert.
  - cbn [header count entries].
    rewrite live_entries_insert by lia. rewrite Hz, Hm, <- Hc.
    pose proof (live_entries_bounds (<[i := mtime]> (entries blk))) as Hb.
    rewrite length_insert, Hwf, entries_in_block in Hb.
    rewrite live_entries_insert in Hb by lia. rewrite Hz, Hm, <- Hc in Hb.
    unfold u64, U64_MODULUS. rewrite Z.mod_small; lia.
Qed.

Lemma delete_block_ok i blk :
  block_ok blk ->
  (i < Z.to_nat NILFS_ENTRIES_IN_ATIME_BLOCK)%nat ->
  timespec_is_zero (default timespec_zero (entries blk !! i)) = false ->
  block_ok (delete_block i blk).
Proof.
  intros [Hwf Hc] Hi Hp. unfold delete_block. unfold block_wf in Hwf.
  split.
  - unfold block_wf. cbn [entries]. by rewrite length_insert.
  - cbn [header count entries].
    rewrite live_entries_insert by lia. rewrite Hp.
    change (timespec_is_zero timespec_zero) with true. cbn iota.
    rewrite <- Hc.
    pose proof (live_entries_bounds (<[i := timespec_zero]> (entries blk)))
      as Hb.
    rewrite length_insert, Hwf, entries_in_block in Hb.
    rewrite live_entries_insert in Hb by lia. rewrite Hp in Hb.
    change (timespec_is_zero timespec_zero) with true in Hb. cbn iota in Hb.
    rewrite <- Hc in Hb.
    unfold u64, U64_MODULUS. rewrite Z.mod_small; lia.
Qed.

(** One admissible operation keeps every counter right. *)
Lemma run_op_ok o w :
  world_ok w -> op_admissible o w = true -> world_ok (run_op o w).
Proof.
  intros Hw Hadm. destruct o as [atimefile inode_p ino|atimefile ino|gf df];
    cbn [run_op op_admissible] in *.
  - destruct atimefile as [a|]; [|done].
    destruct (Z.eq_dec a inode_p) as [->|Hne].
    { unfold nilfs_atime_fill_inode. by rewrite Z.eqb_refl. }
    destruct (mdt_get_fault w !! nilfs_atime_get_block_number (i_ino ino))
      as [f|] eqn:Hf.
    + by rewrite (fill_failed _ _ _ _ f).
    + rewrite fill_acquired by done. unfold world_ok. run_world.
      apply map_Forall_insert_2; [|done].
      apply fill_block_ok; [by apply block_at_ok | apply slot_index_lt |].
      by apply negb_true_iff.
  - destruct (mdt_get_fault w !! nilfs_atime_get_block_number (i_ino ino))
      as [f|] eqn:Hf.
    + by rewrite (delete_failed _ _ _ f).
    + rewrite delete_acquired by done. cbn [snd].
      assert (block_ok
                (delete_block (snd (slot_of (i_ino ino)))
                   (block_at w (nilfs_atime_get_block_number (i_ino ino)))))
        as Hblk.
      { apply delete_block_ok;
          [by apply block_at_ok | apply slot_index_lt |].
        rewrite <- entry_at_slot. by apply negb_true_iff. }
      destruct (0 =? _); unfold world_ok; run_world.
      * destruct (mdt_delete_fault w !! _).
        -- by apply map_Forall_insert_2.
        -- by apply map_Forall_delete.
      * by apply map_Forall_insert_2.
  - done.
Qed.

Lemma run_ok ops w :
  world_ok w -> admissible ops w = true -> world_ok (run ops w).
Proof.
  revert w. induction ops as [|o ops IH]; intros w Hw Hadm; [done|].
  cbn [run admissible] in *. apply andb_true_iff in Hadm as [Ho Hrest].
  apply IH; [by apply run_op_ok | done].
Qed.

(** C1, for callers that keep to valid times and to entries that are
    there: starting from a store whose blocks are all as
    [nilfs_atime_block_init] leaves them, after every sequence of fills
    with a modification time that is not (0,0), of deletes of entries that
    are present, and of changes in the condition of the backing layer, the
    counter of every block of the file is the number of its entries that
    are not (0,0). *)
Theorem counter_counts_valid_entries (ops : list op) (w : world) :
  fresh_store w ->
  admissible ops w = true ->
  forall b blk,
    mdt_blocks (run ops w) !! b = Some blk ->
    count (header blk) = live_entries (entries blk)
    /\ length (entries blk) = Z.to_nat NILFS_ENTRIES_IN_ATIME_BLOCK.
Proof.
  intros Hfresh Hadm b blk Hb.
  destruct (run_ok ops w (fresh_store_ok w Hfresh) Hadm b blk Hb) as [Hwf Hc].
  by split.
Qed.

Lemma counter_counts_valid_entries_witness :
  fresh_store empty_world
  /\ admissible mixed_ops empty_world = true
  /\ exists blk,
       mdt_blocks (run mixed_ops empty_world) !! 0 = Some blk
       /\ count (header blk) = 1
       /\ count (header blk) = live_entries (entries blk).
Proof.
  assert (fresh_store empty_world) as Hfresh by apply map_Forall_empty.
  assert (admissible mixed_ops empty_world = true) as Hadm
    by (vm_compute; reflexivity).
  split; [exact Hfresh|]. split; [exact Hadm|].
  destruct (mdt_blocks (run mixed_ops empty_world) !! 0) as [blk|] eqn:Hb;
    [|vm_compute in Hb; discriminate].
  exists blk. split; [reflexivity|]. split.
  - vm_compute in Hb. injection Hb as <-. reflexivity.
  - exact (proj1 (counter_counts_valid_entries mixed_ops empty_world
                    Hfresh Hadm 0 blk Hb)).
Defined.

(** The counter is not the number of valid entries after every sequence
    of fills and deletes: two deletes after one fill leave block 0 with a
    counter of 2^64 - 1 and no valid entry. *)
Lemma counter_miscounts_after_double_delete :
  ~ (forall (ops : list op) (w : world),
       fresh_store w ->
       forall b blk,
         mdt_blocks (run ops w) !! b = Some blk ->
         count (header blk) = live_entries (entries blk)).
Proof.
  intros Hall.
  assert (fresh_store empty_world) as Hfresh by apply map_Forall_empty.
  destruct (mdt_blocks (run double_delete_ops empty_world) !! 0)
    as [blk|] eqn:Hb; [|vm_compute in Hb; discriminate].
  specialize (Hall double_delete_ops empty_world Hfresh 0 blk Hb).
  vm_compute in Hb. injection Hb as <-.
  vm_compute in Hall. discriminate.
Qed.

(** Nor after a fill with the time (0,0): the counter goes to 1 while the
    entry still reads as absent. *)
Lemma counter_miscounts_after_zero_fill :
  exists blk,
    mdt_blocks (run zero_fill_ops empty_world) !! 0 = Some blk
    /\ count (header blk) = 1
    /\ live_entries (entries blk) = 0.
Proof.
  destruct (mdt_blocks (run zero_fill_ops empty_world) !! 0)
    as [blk|] eqn:Hb; [|vm_compute in Hb; discriminate].
  exists blk. split; [reflexivity|].
  vm_compute in Hb. injection Hb as <-. split; reflexivity.
Qed.

(** ** Delete after fill *)

Lemma present_counted i blk :
  block_ok blk ->
  (i < Z.to_nat NILFS_ENTRIES_IN_ATIME_BLOCK)%nat ->
  timespec_is_zero (default timespec_zero (entries blk !! i)) = false ->
  1 <= count (header blk) <= NILFS_ENTRIES_IN_ATIME_BLOCK.
Proof.
  intros [Hwf Hc] Hi Hp. unfold block_wf in Hwf.
  pose proof (live_entries_bounds (entries blk)) as Hall.
  pose proof (live_entries_bounds (<[i := timespec_zero]> (entries blk)))
    as Hb.
  rewrite live_entries_insert in Hb by lia. rewrite Hp in Hb.
  change (timespec_is_zero timespec_zero) with true in Hb. cbn iota in Hb.
  rewrite Hwf in Hall. rewrite entries_in_block in *. lia.
Qed.

Lemma fill_block_entry i mtime blk :
  block_wf blk ->
  (i < Z.to_nat NILFS_ENTRIES_IN_ATIME_BLOCK)%nat ->
  timespec_is_zero mtime = false ->
  timespec_is_zero
    (default timespec_zero (entries (fill_block i mtime blk) !! i)) = false.
Proof.
  intros Hwf Hi Hm. unfold fill_block. unfold block_wf in Hwf.
  destruct (timespec_is_zero (default timespec_zero (entries blk !! i)))
    eqn:Hz; [|done].
  cbn [entries]. rewrite list_lookup_insert_eq by lia. done.
Qed.

(** C6: a delete that follows a fill of the same inode leaves (0,0) in the
    slot of the inode and takes one from the counter of its block, in
    [__u64] arithmetic; the counter the fill left is at least 1 whenever
    counters were right before and the time filled in is a valid one, and
    the delete then leaves it exactly one less. *)
Theorem delete_after_fill (atimefile inode_p : Z) (ino : inode) (w : world) :
  atimefile <> inode_p ->
  mdt_get_fault w !! nilfs_atime_get_block_number (i_ino ino) = None ->
  let b := nilfs_atime_get_block_number (i_ino ino) in
  let slot := slot_of (i_ino ino) in
  let r1 := nilfs_atime_fill_inode (Some atimefile) inode_p ino w in
  let r2 := nilfs_atime_delete_inode_entry atimefile ino (snd r1) in
  fst (fst r1) = 0
  /\ fst r2 = 0
  /\ entry_at (snd r2) slot = timespec_zero
  /\ count_at (snd r2) b = u64 (count_at (snd r1) b - 1)
  /\ (1 <= count_at (snd r1) b <= U64_MODULUS ->
        count_at (snd r2) b = count_at (snd r1) b - 1)
  /\ (world_ok w -> timespec_is_zero (i_mtime ino) = false ->
        entry_at (snd r1) slot <> timespec_zero
        /\ 1 <= count_at (snd r1) b
        /\ count_at (snd r2) b = count_at (snd r1) b - 1).
Proof.
  intros Hne Hf b slot r1 r2.
  destruct (fill_effect atimefile inode_p ino w Hne Hf)
    as (H1 & _ & Hblk & _ & Hfault & _).
  fold b r1 in H1, Hblk, Hfault.
  assert (mdt_get_fault (snd r1) !! b = None) as Hf' by by rewrite Hfault.
  destruct (delete_effect atimefile ino (snd r1) Hf') as (H2 & Hc & He & _).
  fold b r2 slot in H2, Hc, He.
  assert (1 <= count_at (snd r1) b <= U64_MODULUS ->
          count_at (snd r2) b = count_at (snd r1) b - 1) as Hexact.
  { intros Hr. rewrite Hc. unfold u64. apply Z.mod_small.
    unfold U64_MODULUS in *. lia. }
  split; [done|]. split; [done|]. split; [done|]. split; [done|].
  split; [done|].
  intros Hok Hm.
  assert (block_ok (block_at (snd r1) b)) as Hok1.
  { rewrite Hblk. apply fill_block_ok;
      [by apply block_at_ok | apply slot_index_lt | done]. }
  assert (timespec_is_zero (entry_at (snd r1) slot) = false) as Hp.
  { unfold slot. rewrite entry_at_slot. fold b. rewrite Hblk.
    apply fill_block_entry; [|apply slot_index_lt | done].
    by apply (block_at_ok w b Hok). }
  assert (1 <= count_at (snd r1) b <= NILFS_ENTRIES_IN_ATIME_BLOCK) as Hcnt.
  { apply (present_counted (snd (slot_of (i_ino ino)))); [done| |].
    - apply slot_index_lt.
    - by rewrite <- entry_at_slot. }
  split; [by apply timespec_is_zero_false|].
  split; [lia|]. apply Hexact. rewrite entries_in_block in Hcnt.
  unfold U64_MODULUS. lia.
Qed.

Lemma delete_after_fill_witness :
  entry_at (snd (nilfs_atime_delete_inode_entry 7 inode_ten filled_world))
    (slot_of 10) = timespec_zero
  /\ count_at filled_world 0 = 1
  /\ count_at (snd (nilfs_atime_delete_inode_entry 7 inode_ten filled_world))
       0 = count_at filled_world 0 - 1.
Proof.
  assert ((7 : Z) <> 8) as Hne by lia.
  assert (mdt_get_fault empty_world
            !! nilfs_atime_get_block_number (i_ino inode_ten) = None) as Hf
    by (vm_compute; reflexivity).
  destruct (delete_after_fill 7 8 inode_ten empty_world Hne Hf)
    as (_ & _ & He & _ & Hx & _).
  split; [exact He|]. split; [vm_compute; reflexivity|].
  apply Hx. vm_compute. split; discriminate.
Defined.

Lemma fill_reads_or_initializes_witness :
  i_atime (snd (fst (nilfs_atime_fill_inode (Some 7) 8 inode_ten
                       empty_world))) = Timespec 1000 0
  /\ count_at filled_world 0 = u64 (count_at empty_world 0 + 1)
  /\ mdt_blocks
       (snd (nilfs_atime_fill_inode (Some 7) 8 inode_ten_later filled_world))
     = mdt_blocks filled_world
  /\ i_atime
       (snd (fst (nilfs_atime_fill_inode (Some 7) 8 inode_ten_later
                    filled_world)))
     = i_atime (snd (fst (nilfs_atime_fill_inode (Some 7) 8 inode_ten
                            empty_world))).
Proof.
  assert ((7 : Z) <> 8) as Hne by lia.
  assert (world_wf empty_world) as Hwf by apply map_Forall_empty.
  assert (mdt_get_fault empty_world
            !! nilfs_atime_get_block_number (i_ino inode_ten) = None) as Hf
    by (vm_compute; reflexivity).
  destruct (fill_reads_or_initializes 7 8 inode_ten empty_world Hne Hwf Hf)
    as (_ & Habs & _ & Hsecond).
  destruct Habs as (_ & Hc & _ & Ha); [vm_compute; reflexivity|].
  destruct (Hsecond inode_ten_later) as (_ & Hm & H2);
    [reflexivity | vm_compute; discriminate |].
  split; [exact Ha|]. split; [exact Hc|]. split; [exact Hm | exact H2].
Defined.

(* ====================================================================== *)
(** * More properties of the code *)

(** ** The shape of blocks *)

Lemma fill_block_wf i mtime blk : block_wf blk -> block_wf (fill_block i mtime blk).
Proof.
  unfold block_wf, fill_block. intros H.
  destruct (timespec_is_zero _); [|done]. cbn [entries].
  by rewrite length_insert.
Qed.

Lemma update_block_wf i t blk : block_wf blk -> block_wf (update_block i t blk).
Proof.
  unfold block_wf, update_block. intros H. cbn [entries].
  by rewrite length_insert.
Qed.

Lemma delete_block_wf i blk : block_wf blk -> block_wf (delete_block i blk).
Proof.
  unfold block_wf, delete_block. intros H. cbn [entries].
  by rewrite length_insert.
Qed.

Lemma fill_keeps_wf atimefile inode_p ino w :
  world_wf w -> world_wf (snd (nilfs_atime_fill_inode atimefile inode_p ino w)).
Proof.
  intros Hw. destruct atimefile as [a|]; [|done].
  destruct (Z.eq_dec a inode_p) as [->|Hne].
  { unfold nilfs_atime_fill_inode. by rewrite Z.eqb_refl. }
  destruct (mdt_get_fault w !! nilfs_atime_get_block_number (i_ino ino))
    as [f|] eqn:Hf.
  - by rewrite (fill_failed _ _ _ _ f).
  - rewrite fill_acquired by done. unfold world_wf. run_world.
    apply map_Forall_insert_2; [|done].
    by apply fill_block_wf, block_at_wf.
Qed.


Lemma delete_keeps_wf atimefile ino w :
  world_wf w ->
  world_wf (snd (nilfs_atime_delete_inode_entry atimefile ino w)).
Proof.
  intros Hw.
  destruct (mdt_get_fault w !! nilfs_atime_get_block_number (i_ino ino))
    as [f|] eqn:Hf.
  - by rewrite (delete_failed _ _ _ f).
  - rewrite delete_acquired by done. cbn [snd].
    assert (block_wf
              (delete_block (snd (slot_of (i_ino ino)))
                 (block_at w (nilfs_atime_get_block_number (i_ino ino)))))
      as Hblk by by apply delete_block_wf, block_at_wf.
    destruct (0 =? _); unfold world_wf; run_world.
    + destruct (mdt_delete_fault w !! _).
      * by apply map_Forall_insert_2.
      * by apply map_Forall_delete.
    + by apply map_Forall_insert_2.
Qed.



(** ** Update *)

(** What an update that acquired its block leaves behind. *)
Lemma update_effect atimefile ino w :
  mdt_get_fault w !! nilfs_atime_get_block_number (i_ino ino) = None ->
  let b := nilfs_atime_get_block_number (i_ino ino) in
  let i := snd (slot_of (i_ino ino)) in
  let r := nilfs_atime_update_from_inode atimefile ino w in
  fst r = 0
  /\ block_at (snd r) b = update_block i (i_atime ino) (block_at w b)
  /\ mdt_blocks (snd r)
     = <[b := update_block i (i_atime ino) (block_at w b)]> (mdt_blocks w)
  /\ mdt_get_fault (snd r) = mdt_get_fault w
  /\ events_since w (snd r) = acquire_events b ++ release_events b.
Proof.
  intros Hf b i r. subst r. rewrite update_acquired by done.
  fold b i. cbn [fst snd]. rewrite events_since_after_op.
  split; [done|]. split; [|done].
  unfold block_at at 1. run_world. by rewrite lookup_insert_eq.
Qed.

(** X1: an update that acquires its block returns 0, stores the access
    time of the inode in the slot of the inode whatever was there, and
    leaves the counter of the block and every other entry of the block as
    they were. *)
Theorem update_overwrites_entry_only (atimefile : Z) (ino : inode)
  (w : world) :
  world_wf w ->
  mdt_get_fault w !! nilfs_atime_get_block_number (i_ino ino) = None ->
  let b := nilfs_atime_get_block_number (i_ino ino) in
  let slot := slot_of (i_ino ino) in
  let r := nilfs_atime_update_from_inode atimefile ino w in
  fst r = 0
  /\ entry_at (snd r) slot = i_atime ino
  /\ count_at (snd r) b = count_at w b
  /\ (forall j : nat, j <> snd slot ->
        entries (block_at (snd r) b) !! j = entries (block_at w b) !! j)
  /\ length (entries (block_at (snd r) b))
     = Z.to_nat NILFS_ENTRIES_IN_ATIME_BLOCK.
Proof.
  intros Hwf Hf b slot r.
  destruct (update_effect atimefile ino w Hf) as (H0 & Hblk & _).
  fold b r in H0, Hblk.
  pose proof (block_at_wf w b Hwf) as Hlen. unfold block_wf in Hlen.
  split; [done|]. split; [|split; [|split]].
  - unfold slot. rewrite entry_at_slot. fold b. rewrite Hblk.
    unfold update_block. cbn [entries].
    rewrite list_lookup_insert_eq; [done|].
    rewrite Hlen. apply slot_index_lt.
  - unfold count_at. by rewrite Hblk.
  - intros j Hj. rewrite Hblk. unfold update_block. cbn [entries].
    by rewrite list_lookup_insert_ne.
  - rewrite Hblk. unfold update_block. cbn [entries].
    by rewrite length_insert.
Qed.

Lemma update_overwrites_entry_only_witness :
  world_wf filled_world
  /\ entry_at (snd (nilfs_atime_update_from_inode 7 inode_ten_read
                      filled_world)) (slot_of 10) = Timespec 1800 0
  /\ count_at (snd (nilfs_atime_update_from_inode 7 inode_ten_read
                      filled_world)) 0 = count_at filled_world 0.
Proof.
  assert (world_wf filled_world) as Hwf
    by (apply fill_keeps_wf, map_Forall_empty).
  assert (mdt_get_fault filled_world
            !! nilfs_atime_get_block_number (i_ino inode_ten_read) = None)
    as Hf by (vm_compute; reflexivity).
  destruct (update_overwrites_entry_only 7 inode_ten_read filled_world Hwf Hf)
    as (_ & He & Hc & _).
  split; [exact Hwf|]. split; [exact He | exact Hc].
Defined.

(** X3: update never touches the counter, so after an update the number
    of valid entries of the block is the counter, less one if the entry was
    valid before, plus one if the time stored is valid.  The counter stays
    right exactly when an entry that was there gets a valid time or an
    absent one gets (0,0); an update of an absent entry with a valid time
    leaves the counter one short. *)
Theorem update_leaves_counter (atimefile : Z) (ino : inode) (w : world) :
  world_ok w ->
  mdt_get_fault w !! nilfs_atime_get_block_number (i_ino ino) = None ->
  let b := nilfs_atime_get_block_number (i_ino ino) in
  let slot := slot_of (i_ino ino) in
  let w' := snd (nilfs_atime_update_from_inode atimefile ino w) in
  live_entries (entries (block_at w' b))
  = count_at w' b
    - (if timespec_is_zero (entry_at w slot) then 0 else 1)
    + (if timespec_is_zero (i_atime ino) then 0 else 1)
  /\ (timespec_is_zero (entry_at w slot) = timespec_is_zero (i_atime ino) ->
        world_ok w')
  /\ (absent w (i_ino ino) -> timespec_is_zero (i_atime ino) = false ->
        count_at w' b = live_entries (entries (block_at w' b)) - 1
        /\ ~ world_ok w').
Proof.
  intros Hok Hf b slot w'.
  destruct (update_effect atimefile ino w Hf) as (_ & Hblk & Hmap & _).
  fold b w' in Hblk, Hmap.
  destruct (block_at_ok w b Hok) as [Hwf Hc].
  assert (live_entries (entries (block_at w' b))
          = count_at w' b
            - (if timespec_is_zero (entry_at w slot) then 0 else 1)
            + (if timespec_is_zero (i_atime ino) then 0 else 1)) as Hlive.
  { unfold count_at. rewrite Hblk. unfold update_block.
    cbn [entries header]. rewrite live_entries_insert.
    - unfold slot. rewrite entry_at_slot. fold b. lia.
    - unfold block_wf in Hwf. rewrite Hwf. apply slot_index_lt. }
  split; [exact Hlive|]. split.
  - intros Hsame. unfold world_ok. rewrite Hmap.
    apply map_Forall_insert_2; [|done]. rewrite <- Hblk.
    split.
    + rewrite Hblk. by apply update_block_wf.
    + fold (count_at w' b). rewrite Hlive, Hsame.
      destruct (timespec_is_zero (i_atime ino)); lia.
  - intros Habs Hvalid. unfold absent in Habs. fold slot in Habs.
    rewrite Habs, Hvalid in Hlive.
    change (timespec_is_zero timespec_zero) with true in Hlive.
    cbn iota in Hlive. split; [lia|].
    intros Hok'. destruct (block_at_ok w' b Hok') as [_ Hc'].
    fold (count_at w' b) in Hc'. lia.
Qed.

Lemma update_leaves_counter_witness :
  world_ok empty_world
  /\ count_at (snd (nilfs_atime_update_from_inode 7 inode_ten_read
                      empty_world)) 0
     = live_entries
         (entries (block_at (snd (nilfs_atime_update_from_inode 7
                                    inode_ten_read empty_world)) 0)) - 1.
Proof.
  assert (world_ok empty_world) as Hok by apply map_Forall_empty.
  assert (mdt_get_fault empty_world
            !! nilfs_atime_get_block_number (i_ino inode_ten_read) = None)
    as Hf by (vm_compute; reflexivity).
  destruct (update_leaves_counter 7 inode_ten_read empty_world Hok Hf)
    as (_ & _ & Hshort).
  destruct Hshort as (Hc & _);
    [vm_compute; reflexivity | vm_compute; reflexivity |].
  split; [exact Hok | exact Hc].
Defined.

(** X4: what update stores, fill reads back: after an update with an
    access time that is not (0,0), a fill of the same inode number hands
    that time back whatever the modification time it is given, and changes
    no block. *)
Theorem fill_after_update (atimefile inode_p : Z) (ino ino2 : inode)
  (w : world) :
  atimefile <> inode_p ->
  world_wf w ->
  mdt_get_fault w !! nilfs_atime_get_block_number (i_ino ino) = None ->
  i_ino ino2 = i_ino ino ->
  i_atime ino <> timespec_zero ->
  let r1 := nilfs_atime_update_from_inode atimefile ino w in
  let r2 := nilfs_atime_fill_inode (Some atimefile) inode_p ino2 (snd r1) in
  fst r1 = 0
  /\ fst (fst r2) = 0
  /\ i_atime (snd (fst r2)) = i_atime ino
  /\ mdt_blocks (snd r2) = mdt_blocks (snd r1).
Proof.
  intros Hne Hwf Hf Hsame Hvalid r1 r2.
  destruct (update_effect atimefile ino w Hf) as (H1 & Hblk & _ & Hfault & _).
  fold r1 in H1, Hblk, Hfault.
  assert (entry_at (snd r1) (slot_of (i_ino ino)) = i_atime ino) as He.
  { rewrite entry_at_slot, Hblk. unfold update_block. cbn [entries].
    rewrite list_lookup_insert_eq; [done|].
    pose proof (block_at_wf w (nilfs_atime_get_block_number (i_ino ino)) Hwf)
      as Hlen. unfold block_wf in Hlen. rewrite Hlen. apply slot_index_lt. }
  assert (mdt_get_fault (snd r1)
            !! nilfs_atime_get_block_number (i_ino ino2) = None) as Hf2
    by by rewrite Hsame, Hfault.
  destruct (fill_effect atimefile inode_p ino2 (snd r1) Hne Hf2)
    as (H2 & Hino & Hblk2 & Hmap2 & _).
  fold r2 in H2, Hino, Hblk2, Hmap2. rewrite Hsame in *.
  assert (fill_block (snd (slot_of (i_ino ino))) (i_mtime ino2)
            (block_at (snd r1) (nilfs_atime_get_block_number (i_ino ino)))
          = block_at (snd r1) (nilfs_atime_get_block_number (i_ino ino)))
    as Hkeep.
  { unfold fill_block. rewrite <- entry_at_slot, He.
    by rewrite (proj2 (timespec_is_zero_false _) Hvalid). }
  rewrite Hkeep in Hblk2, Hmap2.
  split; [done|]. split; [done|]. split.
  - rewrite Hino. cbn [i_atime set_i_atime].
    by rewrite entry_at_slot, Hblk2, <- entry_at_slot.
  - rewrite Hmap2. apply insert_id, present_block. by rewrite He.
Qed.

Lemma fill_after_update_witness :
  i_atime (snd (fst (nilfs_atime_fill_inode (Some 7) 8 inode_ten_later
                       (snd (nilfs_atime_update_from_inode 7 inode_ten_read
                               empty_world)))))
  = Timespec 1800 0.
Proof.
  assert ((7 : Z) <> 8) as Hne by lia.
  assert (world_wf empty_world) as Hwf by apply map_Forall_empty.
  assert (mdt_get_fault empty_world
            !! nilfs_atime_get_block_number (i_ino inode_ten_read) = None)
    as Hf by (vm_compute; reflexivity).
  assert (i_atime inode_ten_read <> timespec_zero) as Hv
    by (vm_compute; discriminate).
  destruct (fill_after_update 7 8 inode_ten_read inode_ten_later empty_world
              Hne Hwf Hf eq_refl Hv) as (_ & _ & Ha & _).
  exact Ha.
Defined.

(** ** What is held, and what is dirty *)

(** X5: on every path of fill, update and delete, whatever the store and
    whatever fails, the buffers held and the pages mapped afterwards are
    those held and mapped before: the block acquired is released. *)
Theorem operations_release_what_they_acquire (atimefile : inode_ptr)
  (a inode_p : Z) (ino : inode) (w : world) :
  (let w' := snd (nilfs_atime_fill_inode atimefile inode_p ino w) in
   bh_held w' = bh_held w /\ kmapped w' = kmapped w)
  /\ (let w' := snd (nilfs_atime_update_from_inode a ino w) in
      bh_held w' = bh_held w /\ kmapped w' = kmapped w /\ mi_sem w' = false)
  /\ (let w' := snd (nilfs_atime_delete_inode_entry a ino w) in
      bh_held w' = bh_held w /\ kmapped w' = kmapped w /\ mi_sem w' = false).
Proof.
  split; [|split].
  - destruct atimefile as [af|]; [|done].
    destruct (Z.eq_dec af inode_p) as [->|Hne].
    { unfold nilfs_atime_fill_inode. by rewrite Z.eqb_refl. }
    destruct (mdt_get_fault w !! nilfs_atime_get_block_number (i_ino ino))
      as [f|] eqn:Hf.
    + by rewrite (fill_failed _ _ _ _ f).
    + by rewrite fill_acquired.
  - destruct (mdt_get_fault w !! nilfs_atime_get_block_number (i_ino ino))
      as [f|] eqn:Hf.
    + by rewrite (update_failed _ _ _ f).
    + by rewrite update_acquired.
  - destruct (mdt_get_fault w !! nilfs_atime_get_block_number (i_ino ino))
      as [f|] eqn:Hf.
    + by rewrite (delete_failed _ _ _ f).
    + rewrite delete_acquired by done. cbn [snd]. by destruct (0 =? _).
Qed.

(** X6: a fill that acquires its block marks the buffer of the block and
    the atime file dirty and logs the acquisition and the release, also
    when the entry was there already and no block changes. *)
Theorem fill_always_dirties (atimefile inode_p : Z) (ino : inode)
  (w : world) :
  atimefile <> inode_p ->
  mdt_get_fault w !! nilfs_atime_get_block_number (i_ino ino) = None ->
  let b := nilfs_atime_get_block_number (i_ino ino) in
  let w' := snd (nilfs_atime_fill_inode (Some atimefile) inode_p ino w) in
  b ∈ bh_dirty w'
  /\ mdt_dirty w' = true
  /\ events_since w w' = acquire_events b ++ release_events b
  /\ (~ absent w (i_ino ino) ->
        mdt_blocks w' = mdt_blocks w /\ b ∈ bh_dirty w').
Proof.
  intros Hne Hf b w'. subst w'. rewrite fill_acquired by done. fold b.
  cbn [snd]. rewrite events_since_after_op.
  assert (b ∈ bh_dirty
            (after_op w b
               (<[b := fill_block (snd (slot_of (i_ino ino))) (i_mtime ino)
                         (block_at w b)]> (mdt_blocks w))
               (acquire_events b ++ release_events b))) as Hd.
  { run_world. set_solver. }
  split; [exact Hd|]. split; [done|]. split; [done|].
  intros Hp. split; [|exact Hd]. run_world. unfold absent in Hp.
  unfold fill_block. rewrite <- entry_at_slot.
  rewrite (proj2 (timespec_is_zero_false _) Hp).
  apply insert_id. by apply present_block.
Qed.

Lemma fill_always_dirties_witness :
  mdt_blocks (snd (nilfs_atime_fill_inode (Some 7) 8 inode_ten_later
                     filled_world)) = mdt_blocks filled_world
  /\ 0 ∈ bh_dirty (snd (nilfs_atime_fill_inode (Some 7) 8 inode_ten_later
                          filled_world)).
Proof.
  assert ((7 : Z) <> 8) as Hne by lia.
  assert (mdt_get_fault filled_world
            !! nilfs_atime_get_block_number (i_ino inode_ten_later) = None)
    as Hf by (vm_compute; reflexivity).
  destruct (fill_always_dirties 7 8 inode_ten_later filled_world Hne Hf)
    as (_ & _ & _ & Hp).
  apply Hp. unfold absent. vm_compute. discriminate.
Defined.

(** ** Acquiring a block *)

(** X7: [nilfs_atime_get_block] on a store that can get the block returns
    the block of the inode number, held and mapped once more, with the
    semaphore free again and the buffer and the file dirty.  A block the
    file did not have is created with every byte 0; a block it had keeps
    its contents, and so does every other block. *)
Theorem get_block_creates_on_miss (atimefile inode_num : Z) (w : world) :
  mdt_get_fault w !! nilfs_atime_get_block_number inode_num = None ->
  let b := nilfs_atime_get_block_number inode_num in
  let r := nilfs_atime_get_block atimefile inode_num w in
  fst r = inr (b, BufferHead b)
  /\ (mdt_blocks w !! b = None -> mdt_blocks (snd r) !! b = Some zero_block)
  /\ (forall blk, mdt_blocks w !! b = Some blk ->
        mdt_blocks (snd r) = mdt_blocks w)
  /\ is_Some (mdt_blocks (snd r) !! b)
  /\ (forall b', b' <> b -> mdt_blocks (snd r) !! b' = mdt_blocks w !! b')
  /\ bh_held (snd r) = b :: bh_held w
  /\ kmapped (snd r) = b :: kmapped w
  /\ mi_sem (snd r) = false
  /\ b ∈ bh_dirty (snd r)
  /\ mdt_dirty (snd r) = true
  /\ events_since w (snd r) = acquire_events b.
Proof.
  intros Hf b r. subst r. rewrite nilfs_atime_get_block_success by done.
  fold b. cbn [fst snd]. unfold events_since. run_world.
  rewrite drop_app_length, lookup_insert_eq. unfold block_at.
  split; [done|]. split; [by intros ->|]. split.
  { intros blk Hb. rewrite Hb. cbn [from_option id]. by apply insert_id. }
  split; [done|]. split.
  { intros b' Hb'. by rewrite lookup_insert_ne. }
  repeat split; try done. set_solver.
Qed.

Lemma get_block_creates_on_miss_witness :
  mdt_blocks (snd (nilfs_atime_get_block 7 40 filled_world)) !! 1
  = Some zero_block
  /\ mdt_blocks (snd (nilfs_atime_get_block 7 40 filled_world)) !! 0
     = mdt_blocks filled_world !! 0.
Proof.
  assert (mdt_get_fault filled_world !! nilfs_atime_get_block_number 40
          = None) as Hf by (vm_compute; reflexivity).
  destruct (get_block_creates_on_miss 7 40 filled_world Hf)
    as (_ & Hmiss & _ & _ & Hother & _).
  split.
  - apply Hmiss. vm_compute. reflexivity.
  - apply Hother. vm_compute. discriminate.
Defined.

(** ** Fill and delete together *)

Lemma live_entries_none (l : list timespec) :
  live_entries l = 0 -> l = replicate (length l) timespec_zero.
Proof.
  induction l as [|e l IH]; [done|]. cbn [live_entries length replicate].
  pose proof (live_entries_bounds l) as Hb.
  destruct (timespec_is_zero e) eqn:He; [|lia].
  intros Hl. apply timespec_is_zero_true in He as ->. f_equal. apply IH. lia.
Qed.

(** A block that counts rightly no valid entry is the block of zeros. *)
Lemma empty_block_is_zero blk :
  block_ok blk -> count (header blk) = 0 -> blk = zero_block.
Proof.
  intros [Hwf Hc] H0. destruct blk as [[c] l]. cbn [header count entries] in *.
  unfold block_wf in Hwf. cbn [entries] in Hwf. rewrite H0 in Hc.
  rewrite H0. unfold zero_block. f_equal. symmetry in Hc.
  rewrite (live_entries_none l Hc), Hwf. done.
Qed.

Lemma block_at_frame w w' b :
  mdt_blocks w' !! b = mdt_blocks w !! b -> block_at w' b = block_at w b.
Proof. unfold block_at. by intros ->. Qed.

(** X8: a fill that establishes an entry, followed by a delete of the same
    inode, leaves every block of the store reading as before the fill, the
    counter and every entry, provided counters were right before; a block
    created for the fill is given back or left all zero. *)
Theorem delete_undoes_fill (atimefile inode_p : Z) (ino : inode) (w : world) :
  atimefile <> inode_p ->
  world_ok w ->
  mdt_get_fault w !! nilfs_atime_get_block_number (i_ino ino) = None ->
  absent w (i_ino ino) ->
  let r1 := nilfs_atime_fill_inode (Some atimefile) inode_p ino w in
  let r2 := nilfs_atime_delete_inode_entry atimefile ino (snd r1) in
  fst (fst r1) = 0 /\ fst r2 = 0
  /\ forall b', block_at (snd r2) b' = block_at w b'.
Proof.
  intros Hne Hok Hf Habs r1 r2.
  set (b := nilfs_atime_get_block_number (i_ino ino)).
  set (i := snd (slot_of (i_ino ino))).
  destruct (fill_effect atimefile inode_p ino w Hne Hf)
    as (H1 & _ & Hblk & _ & Hfault & _).
  fold b i r1 in H1, Hblk, Hfault.
  assert (mdt_get_fault (snd r1) !! b = None) as Hf1 by by rewrite Hfault.
  destruct (delete_effect atimefile ino (snd r1) Hf1) as (H2 & _).
  fold r2 in H2.
  split; [done|]. split; [done|]. intros b'.
  destruct (decide (b = b')) as [<-|Hb'].
  2:{ rewrite (block_at_frame (snd r1) (snd r2) b'),
        (block_at_frame w (snd r1) b'); [done| |].
      - by apply fill_frame.
      - by apply delete_frame. }
  destruct (block_at_ok w b Hok) as [Hwf Hc]. unfold block_wf in Hwf.
  pose proof (slot_index_lt (i_ino ino)) as Hi. fold i in Hi.
  pose proof (live_entries_bounds (entries (block_at w b))) as Hbound.
  rewrite Hwf, entries_in_block in Hbound.
  unfold absent in Habs. rewrite entry_at_slot in Habs. fold b i in Habs.
  assert (entries (block_at w b) !! i = Some timespec_zero) as Hzero.
  { destruct (entries (block_at w b) !! i) as [e|] eqn:He.
    - cbn [from_option id] in Habs. by subst e.
    - apply lookup_ge_None_1 in He. lia. }
  assert (delete_block i (block_at (snd r1) b) = block_at w b) as Hback.
  { rewrite Hblk. unfold fill_block. rewrite Habs.
    change (timespec_is_zero timespec_zero) with true. cbn iota.
    unfold delete_block. cbn [header count entries].
    rewrite list_insert_insert_eq, (list_insert_id _ _ _ Hzero).
    destruct (block_at w b) as [[c] l]. cbn [header count entries] in *.
    f_equal. f_equal. unfold u64, U64_MODULUS.
    rewrite (Z.mod_small (c + 1)) by lia.
    replace (c + 1 - 1) with c by lia. apply Z.mod_small. lia. }
  subst r2. rewrite delete_acquired by done. fold b i. rewrite Hback.
  cbn [snd]. destruct (0 =? count (header (block_at w b))) eqn:Hz.
  - apply Z.eqb_eq in Hz. unfold block_at at 1. run_world.
    destruct (mdt_delete_fault (snd r1) !! b).
    + by rewrite lookup_insert_eq.
    + rewrite lookup_delete_eq. cbn [from_option id]. symmetry.
      apply empty_block_is_zero; [by apply block_at_ok | done].
  - unfold block_at at 1. run_world. by rewrite lookup_insert_eq.
Qed.

Lemma delete_undoes_fill_witness :
  block_at
    (snd (nilfs_atime_delete_inode_entry 7 (inode_at 12 (Timespec 3000 0))
            (snd (nilfs_atime_fill_inode (Some 7) 8
                    (inode_at 12 (Timespec 3000 0)) filled_world)))) 0
  = block_at filled_world 0.
Proof.
  assert ((7 : Z) <> 8) as Hne by lia.
  assert (world_ok filled_world) as Hok.
  { apply (run_op_ok (OpFill (Some 7) 8 inode_ten) empty_world);
      [apply map_Forall_empty | vm_compute; reflexivity]. }
  assert (mdt_get_fault filled_world
            !! nilfs_atime_get_block_number
                 (i_ino (inode_at 12 (Timespec 3000 0))) = None) as Hf
    by (vm_compute; reflexivity).
  assert (absent filled_world (i_ino (inode_at 12 (Timespec 3000 0))))
    as Habs by (vm_compute; reflexivity).
  destruct (delete_undoes_fill 7 8 (inode_at 12 (Timespec 3000 0))
              filled_world Hne Hok Hf Habs) as (_ & _ & Hsame).
  exact (Hsame 0).
Defined.

(** X9: the counter alone decides the fate of a block.  A delete in a
    block whose counter is 1, on a store that can delete blocks, takes the
    whole block out of the file, whichever inode of the block is deleted
    and whatever the other entries hold: afterwards every inode of that
    block reads as absent. *)
Theorem delete_reclaims_on_counter_alone (atimefile : Z) (ino : inode)
  (w : world) :
  mdt_get_fault w !! nilfs_atime_get_block_number (i_ino ino) = None ->
  mdt_delete_fault w !! nilfs_atime_get_block_number (i_ino ino) = None ->
  count_at w (nilfs_atime_get_block_number (i_ino ino)) = 1 ->
  let b := nilfs_atime_get_block_number (i_ino ino) in
  let r := nilfs_atime_delete_inode_entry atimefile ino w in
  fst r = 0
  /\ mdt_blocks (snd r) !! b = None
  /\ mdt_blocks (snd r) = delete b (mdt_blocks w)
  /\ forall n, nilfs_atime_get_block_number n = b ->
       entry_at (snd r) (slot_of n) = timespec_zero.
Proof.
  intros Hf Hd Hc b r. subst r. rewrite delete_acquired by done. fold b.
  unfold delete_block. cbn [header count]. fold (count_at w b).
  fold b in Hc, Hd. rewrite Hc, Hd.
  change (0 =? u64 (1 - 1)) with true. cbn iota. cbn [fst snd].
  split; [done|]. run_world. split; [apply lookup_delete_eq|].
  split; [done|]. intros n Hn. rewrite entry_at_slot, Hn.
  unfold block_at. run_world. rewrite lookup_delete_eq.
  cbn [from_option id]. apply zero_block_entry.
Qed.

Lemma delete_reclaims_on_counter_alone_witness :
  entry_at one_left_world (slot_of 11) = Timespec 1500 3
  /\ entry_at (snd (nilfs_atime_delete_inode_entry 7 inode_ten
                      one_left_world)) (slot_of 11) = timespec_zero.
Proof.
  split; [vm_compute; reflexivity|].
  assert (mdt_get_fault one_left_world
            !! nilfs_atime_get_block_number (i_ino inode_ten) = None) as Hf
    by (vm_compute; reflexivity).
  assert (mdt_delete_fault one_left_world
            !! nilfs_atime_get_block_number (i_ino inode_ten) = None) as Hd
    by (vm_compute; reflexivity).
  assert (count_at one_left_world
            (nilfs_atime_get_block_number (i_ino inode_ten)) = 1) as Hc
    by (vm_compute; reflexivity).
  destruct (delete_reclaims_on_counter_alone 7 inode_ten one_left_world
              Hf Hd Hc) as (_ & _ & _ & Hgone).
  apply Hgone. vm_compute. reflexivity.
Defined.

(** X10: a fill that acquires its block, and a delete that leaves the
    counter of its block at a value other than 0, change no entry of the
    block but the one of their inode. *)
Theorem other_entries_stay (atimefile inode_p : Z) (ino : inode) (w : world)
  (j : nat) :
  j <> snd (slot_of (i_ino ino)) ->
  mdt_get_fault w !! nilfs_atime_get_block_number (i_ino ino) = None ->
  let b := nilfs_atime_get_block_number (i_ino ino) in
  (atimefile <> inode_p ->
     entries (block_at (snd (nilfs_atime_fill_inode (Some atimefile)
                               inode_p ino w)) b) !! j
     = entries (block_at w b) !! j)
  /\ (u64 (count_at w b - 1) <> 0 ->
        entries (block_at (snd (nilfs_atime_delete_inode_entry atimefile
                                  ino w)) b) !! j
        = entries (block_at w b) !! j).
Proof.
  intros Hj Hf b. split.
  - intros Hne.
    destruct (fill_effect atimefile inode_p ino w Hne Hf) as (_ & _ & Hblk & _).
    fold b in Hblk. rewrite Hblk. unfold fill_block.
    destruct (timespec_is_zero _); [|done]. cbn [entries].
    by rewrite list_lookup_insert_ne.
  - intros Hc. rewrite delete_acquired by done. fold b.
    unfold delete_block at 1. cbn [header count]. fold (count_at w b).
    destruct (0 =? u64 (count_at w b - 1)) eqn:Hz.
    { apply Z.eqb_eq in Hz. congruence. }
    cbn [snd]. unfold block_at at 1. run_world. rewrite lookup_insert_eq.
    cbn [from_option id]. unfold delete_block. cbn [entries].
    by rewrite list_lookup_insert_ne.
Qed.

Lemma other_entries_stay_witness :
  entries (block_at (snd (nilfs_atime_fill_inode (Some 7) 8
                            (inode_at 12 (Timespec 3000 0)) filled_world)) 0)
    !! 10%nat
  = entries (block_at filled_world 0) !! 10%nat.
Proof.
  assert ((10%nat) <> snd (slot_of (i_ino (inode_at 12 (Timespec 3000 0)))))
    as Hj by (vm_compute; discriminate).
  assert (mdt_get_fault filled_world
            !! nilfs_atime_get_block_number
                 (i_ino (inode_at 12 (Timespec 3000 0))) = None) as Hf
    by (vm_compute; reflexivity).
  destruct (other_entries_stay 7 8 (inode_at 12 (Timespec 3000 0))
              filled_world 10%nat Hj Hf) as (Hfill & _).
  apply Hfill. lia.
Defined.

(** X11: delete forgets the time of an inode: a fill that follows a delete
    of the same inode number hands back its own modification time, stores
    it in the slot, and brings the counter of the block back to what it
    was before the delete, modulo 2^64. *)
Theorem fill_after_delete (atimefile inode_p : Z) (ino ino2 : inode)
  (w : world) :
  atimefile <> inode_p ->
  world_wf w ->
  mdt_get_fault w !! nilfs_atime_get_block_number (i_ino ino) = None ->
  i_ino ino2 = i_ino ino ->
  let b := nilfs_atime_get_block_number (i_ino ino) in
  let slot := slot_of (i_ino ino) in
  let r1 := nilfs_atime_delete_inode_entry atimefile ino w in
  let r2 := nilfs_atime_fill_inode (Some atimefile) inode_p ino2 (snd r1) in
  fst r1 = 0
  /\ fst (fst r2) = 0
  /\ i_atime (snd (fst r2)) = i_mtime ino2
  /\ entry_at (snd r2) slot = i_mtime ino2
  /\ count_at (snd r2) b = u64 (count_at w b).
Proof.
  intros Hne Hwf Hf Hsame b slot r1 r2.
  destruct (delete_effect atimefile ino w Hf) as (H1 & Hc1 & He1 & Hf1 & _).
  fold b r1 slot in H1, Hc1, He1, Hf1.
  assert (world_wf (snd r1)) as Hwf1 by by apply delete_keeps_wf.
  assert (mdt_get_fault (snd r1)
            !! nilfs_atime_get_block_number (i_ino ino2) = None) as Hf2
    by by rewrite Hsame, Hf1.
  destruct (fill_effect atimefile inode_p ino2 (snd r1) Hne Hf2)
    as (H2 & Hino & Hblk & _).
  rewrite Hsame in Hino, Hblk. fold b r2 slot in H2, Hino, Hblk.
  assert (fill_block (snd slot) (i_mtime ino2) (block_at (snd r1) b)
          = {| header := {| count := u64 (count_at (snd r1) b + 1) |};
               entries := <[snd slot := i_mtime ino2]>
                            (entries (block_at (snd r1) b)) |}) as Hfb.
  { unfold fill_block. unfold slot at 1. rewrite <- entry_at_slot.
    fold slot. rewrite He1. done. }
  assert (entry_at (snd r2) slot = i_mtime ino2) as He2.
  { unfold slot. rewrite entry_at_slot. fold b slot. rewrite Hblk, Hfb.
    cbn [entries]. rewrite list_lookup_insert_eq; [done|].
    rewrite (block_at_wf (snd r1) b Hwf1). apply slot_index_lt. }
  split; [done|]. split; [done|]. split; [by rewrite Hino, He2|].
  split; [done|].
  unfold count_at at 1. rewrite Hblk, Hfb. cbn [header count].
  rewrite Hc1. unfold u64, U64_MODULUS.
  rewrite Z.add_mod_idemp_l by lia. f_equal. lia.
Qed.

Lemma fill_after_delete_witness :
  i_atime
    (snd (fst (nilfs_atime_fill_inode (Some 7) 8 inode_ten_later
                 (snd (nilfs_atime_delete_inode_entry 7 inode_ten
                         filled_world)))))
  = Timespec 2000 0.
Proof.
  assert ((7 : Z) <> 8) as Hne by lia.
  assert (world_wf filled_world) as Hwf
    by (apply fill_keeps_wf, map_Forall_empty).
  assert (mdt_get_fault filled_world
            !! nilfs_atime_get_block_number (i_ino inode_ten) = None) as Hf
    by (vm_compute; reflexivity).
  destruct (fill_after_delete 7 8 inode_ten inode_ten_later filled_world
              Hne Hwf Hf eq_refl) as (_ & _ & Ha & _).
  exact Ha.
Defined.

(** X12: given a modification time that is not (0,0), a fill that returns
    0 never hands back (0,0) as access time, with or without an atime
    file. *)
Theorem fill_hands_back_valid_time (atimefile : inode_ptr) (inode_p : Z)
  (ino : inode) (w : world) :
  world_wf w ->
  i_mtime ino <> timespec_zero ->
  let r := nilfs_atime_fill_inode atimefile inode_p ino w in
  fst (fst r) = 0 ->
  i_atime (snd (fst r)) <> timespec_zero.
Proof.
  intros Hwf Hm r H0. subst r.
  destruct atimefile as [a|]; [|done].
  destruct (Z.eq_dec a inode_p) as [->|Hne].
  { unfold nilfs_atime_fill_inode in *. rewrite Z.eqb_refl in *. done. }
  destruct (mdt_get_fault w !! nilfs_atime_get_block_number (i_ino ino))
    as [f|] eqn:Hf.
  - rewrite (fill_failed _ _ _ _ f) in H0 by done. cbn [fst] in H0.
    destruct f; unfold fault_errno, EIO, ENOMEM in H0; lia.
  - destruct (fill_effect a inode_p ino w Hne Hf) as (_ & Hino & Hblk & _).
    rewrite Hino. cbn [i_atime set_i_atime].
    rewrite entry_at_slot, Hblk. apply timespec_is_zero_false.
    apply fill_block_entry;
      [by apply block_at_wf | apply slot_index_lt |].
    by apply timespec_is_zero_false.
Qed.

Lemma fill_hands_back_valid_time_witness :
  i_atime (snd (fst (nilfs_atime_fill_inode (Some 7) 8 inode_ten_later
                       filled_world))) <> timespec_zero.
Proof.
  assert (world_wf filled_world) as Hwf
    by (apply fill_keeps_wf, map_Forall_empty).
  assert (i_mtime inode_ten_later <> timespec_zero) as Hm
    by (vm_compute; discriminate).
  apply (fill_hands_back_valid_time (Some 7) 8 inode_ten_later filled_world
           Hwf Hm).
  vm_compute. reflexivity.
Defined.

(** ** Blocks with no valid entry are given back *)

Lemma run_op_no_empty_block o w :
  no_empty_block w ->
  op_admissible o w = true ->
  reclaim_never_fails [o] = true ->
  no_empty_block (run_op o w).
Proof.
  intros (Hok & Hdf & Hone) Hadm Hrec.
  pose proof (run_op_ok o w Hok Hadm) as Hok'.
  split; [exact Hok'|].
  destruct o as [atimefile inode_p ino|atimefile ino|gf df];
    cbn [run_op op_admissible reclaim_never_fails] in *.
  - destruct atimefile as [a|]; [|done].
    destruct (Z.eq_dec a inode_p) as [->|Hne].
    { unfold nilfs_atime_fill_inode. by rewrite Z.eqb_refl. }
    destruct (mdt_get_fault w !! nilfs_atime_get_block_number (i_ino ino))
      as [f|] eqn:Hf.
    + by rewrite (fill_failed _ _ _ _ f).
    + rewrite fill_acquired by done. run_world. split; [done|].
      apply map_Forall_insert_2; [|done].
      apply negb_true_iff in Hadm.
      apply (present_counted (snd (slot_of (i_ino ino)))).
      * apply fill_block_ok;
          [by apply block_at_ok | apply slot_index_lt | done].
      * apply slot_index_lt.
      * apply fill_block_entry; [|apply slot_index_lt | done].
        by apply (block_at_ok w _ Hok).
  - destruct (mdt_get_fault w !! nilfs_atime_get_block_number (i_ino ino))
      as [f|] eqn:Hf.
    + by rewrite (delete_failed _ _ _ f).
    + rewrite delete_acquired by done. cbn [snd].
      assert (block_ok
                (delete_block (snd (slot_of (i_ino ino)))
                   (block_at w (nilfs_atime_get_block_number (i_ino ino)))))
        as Hblk.
      { apply delete_block_ok;
          [by apply block_at_ok | apply slot_index_lt |].
        rewrite <- entry_at_slot. by apply negb_true_iff. }
      destruct (0 =? _) eqn:Hz; run_world; (split; [done|]).
      * rewrite Hdf, lookup_empty. by apply map_Forall_delete.
      * apply map_Forall_insert_2; [|done]. apply Z.eqb_neq in Hz.
        destruct Hblk as [_ Hc].
        pose proof (live_entries_bounds
                      (entries (delete_block (snd (slot_of (i_ino ino)))
                         (block_at w
                            (nilfs_atime_get_block_number (i_ino ino))))))
          as Hb.
        lia.
  - apply andb_true_iff in Hrec as [Hd _].
    apply bool_decide_eq_true in Hd. subst df. done.
Qed.

Lemma run_no_empty_block ops w :
  no_empty_block w ->
  admissible ops w = true ->
  reclaim_never_fails ops = true ->
  no_empty_block (run ops w).
Proof.
  revert w. induction ops as [|o ops IH]; intros w Hw Hadm Hrec; [done|].
  cbn [run admissible] in *. apply andb_true_iff in Hadm as [Ho Hrest].
  apply IH; [apply run_op_no_empty_block; [done..|] | done |].
  - destruct o; cbn [reclaim_never_fails] in *; try done.
    apply andb_true_iff in Hrec as [-> _]. done.
  - destruct o; cbn [reclaim_never_fails] in *; try done.
    by apply andb_true_iff in Hrec as [_ ->].
Qed.

(** X13: the file keeps no block without a valid entry.  Starting from a
    file with no block, on a backing layer that never fails to delete one,
    after every sequence of fills with valid times and deletes of entries
    that are there, every block of the file counts between 1 and 31 valid
    entries. *)
Theorem empty_blocks_are_given_back (ops : list op) (w : world) :
  mdt_blocks w = ∅ ->
  mdt_delete_fault w = ∅ ->
  admissible ops w = true ->
  reclaim_never_fails ops = true ->
  forall b blk,
    mdt_blocks (run ops w) !! b = Some blk ->
    1 <= count (header blk) <= NILFS_ENTRIES_IN_ATIME_BLOCK
    /\ count (header blk) = live_entries (entries blk).
Proof.
  intros Hempty Hdf Hadm Hrec b blk Hb.
  assert (no_empty_block w) as Hw.
  { split; [|split; [done|]]; unfold world_ok; rewrite Hempty;
      apply map_Forall_empty. }
  destruct (run_no_empty_block ops w Hw Hadm Hrec) as (Hok & _ & Hone).
  destruct (Hok b blk Hb) as [Hwf Hc]. specialize (Hone b blk Hb).
  cbn beta in Hone. split; [|done].
  pose proof (live_entries_bounds (entries blk)) as Hbound.
  unfold block_wf in Hwf. rewrite Hwf in Hbound.
  rewrite entries_in_block in *. lia.
Qed.

Lemma empty_blocks_are_given_back_witness :
  admissible mixed_ops empty_world = true
  /\ reclaim_never_fails mixed_ops = true
  /\ exists blk,
       mdt_blocks (run mixed_ops empty_world) !! 0 = Some blk
       /\ 1 <= count (header blk) <= NILFS_ENTRIES_IN_ATIME_BLOCK.
Proof.
  split; [vm_compute; reflexivity|]. split; [vm_compute; reflexivity|].
  destruct (mdt_blocks (run mixed_ops empty_world) !! 0) as [blk|] eqn:Hb;
    [|vm_compute in Hb; discriminate].
  exists blk. split; [reflexivity|].
  refine (proj1 (empty_blocks_are_given_back mixed_ops empty_world
                   eq_refl eq_refl _ _ 0 blk Hb));
    vm_compute; reflexivity.
Defined.

(** ** The earlier version *)

(** X14: the first fill of an inode does what the earlier version of
    [nilfs_atime_fill_inode] did for every fill: when there is no atime
    file, or the entry of the inode is absent, a fill that returns 0 leaves
    the inode with its modification time as access time. *)
Theorem first_fill_agrees_with_stub (atimefile : inode_ptr) (inode_p : Z)
  (ino : inode) (w : world) :
  world_wf w ->
  atimefile = None \/ atimefile = Some inode_p \/ absent w (i_ino ino) ->
  let r := nilfs_atime_fill_inode atimefile inode_p ino w in
  fst (fst r) = 0 ->
  snd (fst r) = Stub.nilfs_atime_fill_inode ino.
Proof.
  intros Hwf Hcase r H0. subst r. unfold Stub.nilfs_atime_fill_inode.
  destruct atimefile as [a|]; [|done].
  destruct (Z.eq_dec a inode_p) as [->|Hne].
  { unfold nilfs_atime_fill_inode. by rewrite Z.eqb_refl. }
  destruct Hcase as [?|[?|Habs]]; [done|congruence|].
  destruct (mdt_get_fault w !! nilfs_atime_get_block_number (i_ino ino))
    as [f|] eqn:Hf.
  - rewrite (fill_failed _ _ _ _ f) in H0 by done. cbn [fst] in H0.
    destruct f; unfold fault_errno, EIO, ENOMEM in H0; lia.
  - destruct (fill_effect a inode_p ino w Hne Hf) as (_ & Hino & Hblk & _).
    rewrite Hino. f_equal. rewrite entry_at_slot, Hblk.
    unfold fill_block. unfold absent in Habs. rewrite <- entry_at_slot, Habs.
    change (timespec_is_zero timespec_zero) with true. cbn iota.
    cbn [entries]. rewrite list_lookup_insert_eq; [done|].
    rewrite (block_at_wf w _ Hwf). apply slot_index_lt.
Qed.

Lemma first_fill_agrees_with_stub_witness :
  snd (fst (nilfs_atime_fill_inode (Some 7) 8 inode_eleven_read filled_world))
  = Stub.nilfs_atime_fill_inode inode_eleven_read.
Proof.
  assert (world_wf filled_world) as Hwf
    by (apply fill_keeps_wf, map_Forall_empty).
  apply (first_fill_agrees_with_stub (Some 7) 8 inode_eleven_read
           filled_world Hwf).
  - right. right. vm_compute. reflexivity.
  - vm_compute. reflexivity.
Defined.

(** ** Reading the inode of the atime file *)

(** X15: [nilfs_atime_read] returns 0 exactly when it stores an inode
    through [inodep], and the inode stored is the one the cache gave for
    [NILFS_ATIME_INO].  When the cache gives [NULL] it returns -ENOMEM
    after that one call; any other value returned that is not 0 is what
    [nilfs_mdt_init] or [nilfs_read_inode_common] returned for that
    inode. *)
Theorem nilfs_atime_read_outcome (env : iget_env) (raw_inode : Z) :
  let r := nilfs_atime_read env raw_inode in
  let cached := nilfs_iget_locked env (NILFS_ATIME_INO env) in
  (read_ret r = 0 <-> is_Some (read_inodep r))
  /\ (forall a, read_inodep r = Some a -> exists st, cached = Some (a, st))
  /\ (cached = None ->
        read_ret r = - ENOMEM
        /\ read_calls r = [CallIgetLocked (NILFS_ATIME_INO env)])
  /\ (forall a st, cached = Some (a, st) -> read_ret r <> 0 ->
        read_ret r = nilfs_mdt_init env a (NILFS_MDT_GFP env) 0
        \/ read_ret r = nilfs_read_inode_common env a raw_inode).
Proof.
  intros r cached. subst r cached. unfold nilfs_atime_read.
  destruct (nilfs_iget_locked env (NILFS_ATIME_INO env)) as [[a st]|].
  2:{ cbn [read_ret read_inodep read_calls]. unfold ENOMEM.
      split; [split; [lia | by intros [? ?]]|].
      split; [done|]. split; [done|]. done. }
  destruct (Z.land st (I_NEW env) =? 0).
  { cbn [read_ret read_inodep]. split; [by split; eauto|].
    split; [intros ? [= <-]; eauto|]. split; [done|]. intros ? ? _ ?. done. }
  destruct (nilfs_mdt_init env a (NILFS_MDT_GFP env) 0 =? 0) eqn:Hi.
  2:{ apply Z.eqb_neq in Hi. cbn [read_ret read_inodep].
      split; [split; [done | by intros [? ?]]|].
      split; [done|]. split; [done|]. intros ? ? [= <- <-] _. by left. }
  destruct (nilfs_read_inode_common env a raw_inode =? 0) eqn:Hr.
  2:{ apply Z.eqb_neq in Hr. cbn [read_ret read_inodep].
      split; [split; [done | by intros [? ?]]|].
      split; [done|]. split; [done|]. intros ? ? [= <- <-] _. by right. }
  cbn [read_ret read_inodep]. split; [by split; eauto|].
  split; [intros ? [= <-]; eauto|]. split; [done|]. intros ? ? _ ?. done.
Qed.

Ltac read_solve :=
  repeat (first [ progress intros | split ]);
  simplify_eq; cbn in *;
  try done; try lia; try congruence;
  try (intuition (simplify_eq; done)).

(** X16: in both versions of [nilfs_atime_read], an inode the cache gives
    as new is unlocked once when the read returns 0 and failed once when
    it does not, never both; an inode that is not new is returned with no
    call but the one to the cache.  The later version declares the layout
    of the file, 504 bytes for a block and 8 for its header, only for a new
    inode and only after [nilfs_mdt_init] returned 0. *)
Theorem nilfs_atime_read_lifecycle (env : iget_env) (raw_inode : Z)
  (stub : bool) :
  let r := if stub then Stub.nilfs_atime_read env raw_inode
           else nilfs_atime_read env raw_inode in
  let ino := if stub then NILFS_CPFILE_INO env else NILFS_ATIME_INO env in
  head (read_calls r) = Some (CallIgetLocked ino)
  /\ (calls_of is_unlock (read_calls r) + calls_of is_failed (read_calls r)
      <= 1)%nat
  /\ (calls_of is_unlock (read_calls r) = 1%nat -> read_ret r = 0)
  /\ (calls_of is_failed (read_calls r) = 1%nat ->
        read_ret r <> 0 /\ read_inodep r = None)
  /\ (forall a st,
        nilfs_iget_locked env ino = Some (a, st) ->
        (Z.land st (I_NEW env) = 0 ->
           read_ret r = 0 /\ read_inodep r = Some a
           /\ read_calls r = [CallIgetLocked ino])
        /\ (Z.land st (I_NEW env) <> 0 ->
              (calls_of is_unlock (read_calls r)
               + calls_of is_failed (read_calls r) = 1)%nat
              /\ (read_ret r = 0 ->
                    last (read_calls r) = Some (CallUnlockNewInode a))
              /\ (read_ret r <> 0 ->
                    last (read_calls r) = Some (CallIgetFailed a))))
  /\ (forall a es hs,
        In (CallMdtSetEntrySize a es hs) (read_calls r) ->
        stub = false
        /\ es = 504 /\ hs = 8
        /\ es = sizeof_nilfs_atime_block_header
                + NILFS_ENTRIES_IN_ATIME_BLOCK * sizeof_timespec
        /\ nilfs_mdt_init env a (NILFS_MDT_GFP env) 0 = 0).
Proof.
  intros r ino. subst r ino. destruct stub.
  - unfold Stub.nilfs_atime_read.
    destruct (nilfs_iget_locked env (NILFS_CPFILE_INO env)) as [[a st]|];
      [|unfold ENOMEM; read_solve].
    destruct (Z.land st (I_NEW env) =? 0) eqn:Hn;
      [apply Z.eqb_eq in Hn; read_solve | apply Z.eqb_neq in Hn].
    destruct (nilfs_read_inode_common env a raw_inode =? 0) eqn:Hr;
      [apply Z.eqb_eq in Hr | apply Z.eqb_neq in Hr]; read_solve.
  - unfold nilfs_atime_read.
    destruct (nilfs_iget_locked env (NILFS_ATIME_INO env)) as [[a st]|];
      [|unfold ENOMEM; read_solve].
    destruct (Z.land st (I_NEW env) =? 0) eqn:Hn;
      [apply Z.eqb_eq in Hn; read_solve | apply Z.eqb_neq in Hn].
    destruct (nilfs_mdt_init env a (NILFS_MDT_GFP env) 0 =? 0) eqn:Hi;
      [apply Z.eqb_eq in Hi | apply Z.eqb_neq in Hi; read_solve].
    destruct (nilfs_read_inode_common env a raw_inode =? 0) eqn:Hr;
      [apply Z.eqb_eq in Hr | apply Z.eqb_neq in Hr]; read_solve.
Qed.

(** A new inode with readers that succeed is set up and unlocked; with a
    disk that cannot be read it is failed and the error comes back. *)
Example read_new_inode :
  nilfs_atime_read new_inode_env 0
  = ReadResult 0 (Some 700)
      [CallIgetLocked 7; CallMdtInit 700 0 0; CallMdtSetEntrySize 700 504 8;
       CallReadInodeCommon 700 0; CallUnlockNewInode 700].
Proof. reflexivity. Qed.

Example read_bad_disk :
  nilfs_atime_read bad_disk_env 0
  = ReadResult (-5) None
      [CallIgetLocked 7; CallMdtInit 700 0 0; CallMdtSetEntrySize 700 504 8;
       CallReadInodeCommon 700 0; CallIgetFailed 700].
Proof. reflexivity. Qed.
